(** * Rhythmic Ribbon MCP server: a shallow embedding of [server.py]

    The module holds three constant tables (nested dictionaries of lists
    and strings) and eight tools that render them as text.  A Python [str]
    is modelled as a [string] holding the UTF-8 bytes of the text.
    Concatenation, [join] and the replacement of one ASCII character are
    exact on such bytes.  [str.upper], [str.title], [repr] and iteration
    over a string follow Unicode: they are computed here on all-ASCII
    text, which is all the tables contain, and on any other text they are
    the operations of the class [Unicode], which stands for the Python
    runtime: every theorem holds whatever those operations are.
    Dictionaries keep insertion order, so they are association lists.
    Exceptions are an explicit [result]; the module globals are threaded
    through every tool call as explicit state. *)

From Stdlib Require Import String Ascii List Bool Arith.
Set Warnings "-register-all".
Import ListNotations.
Open Scope string_scope.

(** ** Python string operations *)

Module PyStr.

Definition LF : ascii := ascii_of_nat 10.
Definition nl : string := String LF "".

Definition is_lower (c : ascii) : bool :=
  let n := nat_of_ascii c in (97 <=? n)%nat && (n <=? 122)%nat.

Definition is_upper (c : ascii) : bool :=
  let n := nat_of_ascii c in (65 <=? n)%nat && (n <=? 90)%nat.

Definition is_cased (c : ascii) : bool := is_lower c || is_upper c.

Definition to_upper (c : ascii) : ascii :=
  if is_lower c then ascii_of_nat (nat_of_ascii c - 32) else c.

Definition to_lower (c : ascii) : ascii :=
  if is_upper c then ascii_of_nat (nat_of_ascii c + 32) else c.

(** Whether a text is all ASCII. *)
Fixpoint is_ascii (s : string) : bool :=
  match s with
  | EmptyString => true
  | String c r => (nat_of_ascii c <? 128)%nat && is_ascii r
  end.

(** [s.upper()] of all-ASCII text *)
Fixpoint upper_ascii (s : string) : string :=
  match s with
  | EmptyString => EmptyString
  | String c r => String (to_upper c) (upper_ascii r)
  end.

(** [s.title()] of all-ASCII text: a letter that follows a cased character
    is lowered, any other letter is raised. *)
Fixpoint title_from (previous_is_cased : bool) (s : string) : string :=
  match s with
  | EmptyString => EmptyString
  | String c r =>
      String (if previous_is_cased then to_lower c else to_upper c)
             (title_from (is_cased c) r)
  end.

Definition title_ascii (s : string) : string := title_from false s.

(** [s.replace(a, b)] for one-character [a] and [b]. *)
Fixpoint replace (a b : ascii) (s : string) : string :=
  match s with
  | EmptyString => EmptyString
  | String c r => String (if Ascii.eqb c a then b else c) (replace a b r)
  end.

(** [s.replace('_', ' ')] *)
Definition unscore (s : string) : string := replace "_" " " s.

(** [sep.join(parts)] *)
Fixpoint join (sep : string) (parts : list string) : string :=
  match parts with
  | [] => ""
  | [x] => x
  | x :: rest => x ++ sep ++ join sep rest
  end.

(** The characters of all-ASCII text, as Python iterates over it. *)
Fixpoint chars_ascii (s : string) : list string :=
  match s with
  | EmptyString => []
  | String c r => String c "" :: chars_ascii r
  end.

Fixpoint mem_char (c : ascii) (s : string) : bool :=
  match s with
  | EmptyString => false
  | String d r => Ascii.eqb c d || mem_char c r
  end.

Definition hex_digit (n : nat) : ascii :=
  if (n <? 10)%nat then ascii_of_nat (48 + n) else ascii_of_nat (87 + n).

Definition squote : ascii := ascii_of_nat 39.
Definition dquote : ascii := ascii_of_nat 34.
Definition backslash : ascii := ascii_of_nat 92.

(** One ASCII character of [repr(s)] inside the quote [q]. *)
Definition repr_char (q c : ascii) : string :=
  let n := nat_of_ascii c in
  if Ascii.eqb c q || Ascii.eqb c backslash then String backslash (String c "")
  else if (n =? 9)%nat then String backslash "t"
  else if (n =? 10)%nat then String backslash "n"
  else if (n =? 13)%nat then String backslash "r"
  else if (n <? 32)%nat || (n =? 127)%nat then
    String backslash (String "x" (String (hex_digit (n / 16)) (String (hex_digit (n mod 16)) "")))
  else String c "".

Fixpoint repr_body (q : ascii) (s : string) : string :=
  match s with
  | EmptyString => EmptyString
  | String c r => repr_char q c ++ repr_body q r
  end.

(** [repr(s)] of all-ASCII text: single quotes, unless the text has a
    single quote and no double quote. *)
Definition repr_ascii (s : string) : string :=
  let q := if mem_char squote s && negb (mem_char dquote s) then dquote else squote in
  String q (repr_body q s ++ String q "").

End PyStr.
Import PyStr.

(** ** Text outside ASCII *)

(** What the Python runtime does with text that has a character outside
    ASCII: upper and title case by the Unicode character tables, [repr]
    with its escapes for unprintable characters, and the split of a text
    into its characters.  The tables of the runtime are not part of the
    server; nothing is assumed about these operations. *)
Class Unicode : Type := {
  unicode_upper : string -> string;
  unicode_title : string -> string;
  unicode_repr : string -> string;
  unicode_chars : string -> list string
}.

(** Operations to run all-ASCII examples with; no such example applies
    them. *)
Definition ascii_only : Unicode :=
  {| unicode_upper := fun s => s;
     unicode_title := fun s => s;
     unicode_repr := fun s => s;
     unicode_chars := fun s => [s] |}.

(** ** Values and exceptions *)

Inductive value : Type :=
| VStr (s : string)
| VList (l : list value)
| VDict (d : list (string * value)).

Inductive exn : Type :=
| KeyError (k : string)
| TypeError
| AttributeError.

Inductive result (A : Type) : Type :=
| Ok (a : A)
| Raise (e : exn).
Arguments Ok {A} a.
Arguments Raise {A} e.

Definition rbind {A B} (r : result A) (k : A -> result B) : result B :=
  match r with
  | Ok a => k a
  | Raise e => Raise e
  end.

Declare Scope result_scope.
Delimit Scope result_scope with res.
Notation "x <- e ;; k" := (rbind e (fun x => k))
  (at level 61, e at next level, right associativity) : result_scope.

(** ** The server, on any runtime *)

Section Server.

Context {U : Unicode}.

(** [s.upper()] *)
Definition upper (s : string) : string :=
  if is_ascii s then upper_ascii s else unicode_upper s.

(** [s.title()] *)
Definition title (s : string) : string :=
  if is_ascii s then title_ascii s else unicode_title s.

(** [repr(s)] of a string *)
Definition repr_str (s : string) : string :=
  if is_ascii s then repr_ascii s else unicode_repr s.

(** The characters of a string, as Python iterates over it. *)
Definition chars (s : string) : list string :=
  if is_ascii s then chars_ascii s else unicode_chars s.

(** [repr(v)], which is also [str(v)] for a list or a dict. *)
Fixpoint repr (v : value) : string :=
  match v with
  | VStr s => repr_str s
  | VList l => "[" ++ join ", " (map repr l) ++ "]"
  | VDict d =>
      "{" ++ join ", " (map (fun kv => repr_str (fst kv) ++ ": " ++ repr (snd kv)) d) ++ "}"
  end.

(** [str(v)], also what an f-string field [{v}] renders. *)
Definition py_str (v : value) : string :=
  match v with
  | VStr s => s
  | _ => repr v
  end.

Fixpoint assoc (k : string) (d : list (string * value)) : option value :=
  match d with
  | [] => None
  | (k', v) :: r => if String.eqb k k' then Some v else assoc k r
  end.

(** [v[k]] *)
Definition getitem (v : value) (k : string) : result value :=
  match v with
  | VDict d =>
      match assoc k d with
      | Some x => Ok x
      | None => Raise (KeyError k)
      end
  | _ => Raise TypeError
  end.

(** [v.items()] *)
Definition items (v : value) : result (list (string * value)) :=
  match v with
  | VDict d => Ok d
  | _ => Raise AttributeError
  end.

(** [k in v], used where [v[...]] has already succeeded, so [v] is a dict. *)
Definition has_key (k : string) (v : value) : bool :=
  match v with
  | VDict d => match assoc k d with Some _ => true | None => false end
  | _ => false
  end.

Fixpoint all_str (l : list value) : result (list string) :=
  match l with
  | [] => Ok []
  | VStr s :: r => (rest <- all_str r ;; Ok (s :: rest))%res
  | _ :: _ => Raise TypeError
  end.

(** [sep.join(v)]: every element must be a string; a string is iterated by
    character and a dict by key. *)
Definition join_value (sep : string) (v : value) : result string :=
  match v with
  | VList l => (parts <- all_str l ;; Ok (join sep parts))%res
  | VStr s => Ok (join sep (chars s))
  | VDict d => Ok (join sep (map fst d))
  end.

(** [sep.join(str(x) for x in l)] *)
Definition join_strs (sep : string) (l : list value) : string :=
  join sep (map py_str l).

(** ** The constant tables *)

Definition strs (l : list string) : value := VList (map VStr l).

Definition RIBBON_TAXONOMY : value :=
  VDict
    [("movement_patterns",
     VDict
      [("spirals", VDict
        [("types", strs ["vertical"; "horizontal"; "diagonal"; "conical"]);
         ("properties", strs ["tight"; "loose"; "uniform"; "progressive"]);
         ("dynamics", strs ["accelerating"; "decelerating"; "constant"; "pulsing"]);
         ("technical_notes", VStr "Arm must maintain consistent radius; wrist rotation drives spiral formation")]);
       ("circles", VDict
        [("types", strs ["full_circles"; "half_circles"; "figure_8"; "infinity"]);
         ("planes", strs ["horizontal"; "vertical"; "diagonal"; "tilted"]);
         ("sizes", strs ["small"; "medium"; "large"; "giant"]);
         ("technical_notes", VStr "Shoulder stability required; elbow extends for larger circles")]);
       ("snakes", VDict
        [("types", strs ["horizontal_snake"; "vertical_snake"; "diagonal_snake"]);
         ("wave_properties", strs ["amplitude"; "frequency"; "symmetry"; "decay"]);
         ("transitions", strs ["into_spiral"; "into_throw"; "into_circle"]);
         ("technical_notes", VStr "Rapid wrist oscillation; arm moves in opposite direction to ribbon")]);
       ("throws", VDict
        [("types", strs ["vertical"; "boomerang"; "stick_throw"; "escape"]);
         ("heights", strs ["low"; "medium"; "high"; "ceiling"]);
         ("rotations", strs ["none"; "half_turn"; "full_turn"; "multiple"]);
         ("technical_notes", VStr "Release point determines trajectory; catch requires visual tracking")]);
       ("wraps", VDict
        [("types", strs ["body_wrap"; "limb_wrap"; "neck_wrap"; "waist_wrap"]);
         ("entry_methods", strs ["spiral_into"; "throw_into"; "pass_through"]);
         ("exit_methods", strs ["unwrap"; "pull_through"; "throw_out"]);
         ("technical_notes", VStr "Tension control critical; body position affects wrap geometry")]);
       ("swings", VDict
        [("types", strs ["pendulum"; "arc"; "circular"; "elliptical"]);
         ("amplitudes", strs ["small"; "medium"; "large"; "full_extension"]);
         ("rhythms", strs ["regular"; "syncopated"; "accelerating"; "decelerating"]);
         ("technical_notes", VStr "Momentum management; gravity assists natural motion")])]);
     ("spatial_relationships",
     VDict
      [("height_zones",
       VDict
        [("floor", VDict
          [("range", VStr "0-50cm");
           ("techniques", strs ["floor_rolls"; "low_snakes"; "ground_spirals"])]);
         ("low", VDict
          [("range", VStr "50cm-1m");
           ("techniques", strs ["low_circles"; "leg_passes"; "seated_elements"])]);
         ("mid", VDict
          [("range", VStr "1-1.5m");
           ("techniques", strs ["standard_circles"; "body_wraps"; "horizontal_patterns"])]);
         ("high", VDict
          [("range", VStr "1.5-2.5m");
           ("techniques", strs ["overhead_circles"; "vertical_spirals"; "high_throws"])]);
         ("ceiling", VDict
          [("range", VStr "2.5m+");
           ("techniques", strs ["maximum_throws"; "ceiling_touches"; "full_extension"])])]);
       ("distance_from_body",
       VDict
        [("contact", VDict
          [("range", VStr "0-20cm");
           ("uses", strs ["wraps"; "body_passes"; "close_spirals"])]);
         ("near", VDict
          [("range", VStr "20-100cm");
           ("uses", strs ["standard_elements"; "medium_circles"; "controlled_patterns"])]);
         ("mid", VDict
          [("range", VStr "1-2m");
           ("uses", strs ["extended_circles"; "large_spirals"; "spatial_fills"])]);
         ("far", VDict
          [("range", VStr "2-4m");
           ("uses", strs ["full_ribbon_extensions"; "throws"; "maximum_reach"])]);
         ("extreme", VDict
          [("range", VStr "4m+");
           ("uses", strs ["stick_end_releases"; "maximum_throws"; "aerial_work"])])]);
       ("planes",
       VDict
        [("horizontal", VDict
          [("orientation", VStr "parallel_to_floor");
           ("elements", strs ["circles"; "snakes"; "spirals"])]);
         ("vertical", VDict
          [("orientation", VStr "perpendicular_to_floor");
           ("elements", strs ["vertical_circles"; "drops"; "rises"])]);
         ("diagonal", VDict
          [("orientation", VStr "45_degrees");
           ("elements", strs ["diagonal_snakes"; "tilted_spirals"; "angled_throws"])]);
         ("rotating", VDict
          [("orientation", VStr "changing");
           ("elements", strs ["plane_transitions"; "3d_spirals"; "complex_paths"])])]);
       ("floor_patterns", VDict
        [("linear", strs ["straight_lines"; "zigzags"; "spiraling_lines"]);
         ("circular", strs ["circles"; "ellipses"; "figure_8s"]);
         ("geometric", strs ["triangles"; "squares"; "star_patterns"]);
         ("organic", strs ["curves"; "waves"; "freeform"])])]);
     ("temporal_dynamics",
     VDict
      [("speed_variations",
       VDict
        [("very_slow", VDict
          [("tempo", VStr "largo");
           ("uses", strs ["dramatic_holds"; "controlled_tension"; "lyrical_moments"])]);
         ("slow", VDict
          [("tempo", VStr "adagio");
           ("uses", strs ["graceful_transitions"; "flow_emphasis"; "aesthetic_shapes"])]);
         ("moderate", VDict
          [("tempo", VStr "andante");
           ("uses", strs ["standard_elements"; "balanced_pacing"; "technical_precision"])]);
         ("fast", VDict
          [("tempo", VStr "allegro");
           ("uses", strs ["quick_transitions"; "rapid_patterns"; "energetic_sequences"])]);
         ("very_fast", VDict
          [("tempo", VStr "presto");
           ("uses", strs ["lightning_snakes"; "rapid_circles"; "virtuosic_displays"])])]);
       ("rhythmic_patterns",
       VDict
        [("regular", VDict
          [("structure", VStr "consistent_beats");
           ("feel", VStr "steady_pulse")]);
         ("syncopated", VDict
          [("structure", VStr "off_beat_accents");
           ("feel", VStr "unexpected_emphasis")]);
         ("polyrhythmic", VDict
          [("structure", VStr "multiple_rhythms");
           ("feel", VStr "complex_layering")]);
         ("rubato", VDict
          [("structure", VStr "flexible_timing");
           ("feel", VStr "expressive_freedom")]);
         ("metric_modulation", VDict
          [("structure", VStr "tempo_shifts");
           ("feel", VStr "dynamic_changes")])]);
       ("acceleration_curves", VDict
        [("linear", VStr "steady_increase");
         ("exponential", VStr "rapid_buildup");
         ("logarithmic", VStr "quick_start_then_slow");
         ("sigmoid", VStr "slow_fast_slow");
         ("stepped", VStr "discrete_speed_changes")]);
       ("transition_timing",
       VDict
        [("immediate", VDict
          [("duration", VStr "0-0.5s");
           ("character", VStr "sharp_contrast")]);
         ("quick", VDict
          [("duration", VStr "0.5-1s");
           ("character", VStr "clear_change")]);
         ("moderate", VDict
          [("duration", VStr "1-2s");
           ("character", VStr "smooth_flow")]);
         ("gradual", VDict
          [("duration", VStr "2-4s");
           ("character", VStr "seamless_blend")]);
         ("extended", VDict
          [("duration", VStr "4s+");
           ("character", VStr "dramatic_transformation")])])]);
     ("physical_properties",
     VDict
      [("tension_states",
       VDict
        [("slack", VDict
          [("characteristics", strs ["loose_fabric"; "natural_drape"; "minimal_control"])]);
         ("light", VDict
          [("characteristics", strs ["gentle_tension"; "floating_quality"; "subtle_control"])]);
         ("medium", VDict
          [("characteristics", strs ["balanced_tension"; "clear_shapes"; "standard_control"])]);
         ("high", VDict
          [("characteristics", strs ["taut_fabric"; "crisp_lines"; "maximum_control"])]);
         ("variable", VDict
          [("characteristics", strs ["changing_tension"; "dynamic_shapes"; "expressive_control"])])]);
       ("arc_geometries",
       VDict
        [("parabolic", VDict
          [("physics", VStr "natural_throw_trajectory");
           ("aesthetics", VStr "graceful_curves")]);
         ("circular", VDict
          [("physics", VStr "constant_radius");
           ("aesthetics", VStr "perfect_shapes")]);
         ("elliptical", VDict
          [("physics", VStr "dual_focal_points");
           ("aesthetics", VStr "dynamic_ovals")]);
         ("hyperbolic", VDict
          [("physics", VStr "diverging_paths");
           ("aesthetics", VStr "dramatic_spreads")]);
         ("spiral", VDict
          [("physics", VStr "rotating_radius");
           ("aesthetics", VStr "flowing_helixes")])]);
       ("wave_properties", VDict
        [("amplitude", strs ["small"; "medium"; "large"; "extreme"]);
         ("frequency", strs ["slow"; "moderate"; "fast"; "rapid"]);
         ("symmetry", strs ["symmetric"; "asymmetric"; "progressive"; "chaotic"]);
         ("decay", strs ["sustained"; "gradual"; "rapid"; "immediate"])]);
       ("material_behavior",
       VDict
        [("flow", VDict
          [("characteristics", strs ["smooth_motion"; "continuous_fabric"; "fluid_paths"])]);
         ("snap", VDict
          [("characteristics", strs ["sharp_movements"; "crisp_sounds"; "defined_endpoints"])]);
         ("float", VDict
          [("characteristics", strs ["airborne_time"; "weightless_feel"; "suspended_moments"])]);
         ("whip", VDict
          [("characteristics", strs ["crack_potential"; "high_speed"; "precision_control"])])])]);
     ("compositional_structure",
     VDict
      [("element_sequences", VDict
        [("progressive_difficulty", strs ["simple_to_complex"; "technical_buildup"; "climactic_peak"]);
         ("thematic_variation", strs ["motif_introduction"; "development"; "recapitulation"]);
         ("contrasting_sections", strs ["varied_dynamics"; "spatial_contrast"; "tempo_shifts"]);
         ("narrative_arc", strs ["beginning"; "development"; "climax"; "resolution"])]);
       ("body_ribbon_coordination",
       VDict
        [("synchronous", VDict
          [("description", VStr "body_and_ribbon_move_together");
           ("effect", VStr "unified_motion")]);
         ("complementary", VDict
          [("description", VStr "body_and_ribbon_different_but_related");
           ("effect", VStr "visual_interest")]);
         ("contrasting", VDict
          [("description", VStr "body_and_ribbon_oppose");
           ("effect", VStr "dynamic_tension")]);
         ("independent", VDict
          [("description", VStr "body_and_ribbon_separate");
           ("effect", VStr "complex_layers")])]);
       ("music_synchronization",
       VDict
        [("rhythmic_matching", VDict
          [("precision", VStr "hit_specific_beats");
           ("impact", VStr "musical_clarity")]);
         ("phrasing", VDict
          [("precision", VStr "match_musical_phrases");
           ("impact", VStr "artistic_interpretation")]);
         ("dynamic_parallel", VDict
          [("precision", VStr "match_volume_intensity");
           ("impact", VStr "emotional_resonance")]);
         ("structural_alignment", VDict
          [("precision", VStr "match_musical_form");
           ("impact", VStr "choreographic_coherence")])]);
       ("spatial_progression", VDict
        [("expanding", strs ["center_to_periphery"; "small_to_large"; "contained_to_open"]);
         ("contracting", strs ["periphery_to_center"; "large_to_small"; "open_to_contained"]);
         ("traveling", strs ["diagonal_crosses"; "circular_paths"; "linear_trajectories"]);
         ("stationary", strs ["fixed_location"; "vertical_exploration"; "depth_variation"])])])].

Definition COMPOSITIONAL_RULES : value :=
  VDict
    [("technical_requirements",
     VDict
      [("code_of_points_2025", VDict
        [("difficulty_groups", strs ["Jumps/Leaps"; "Balance"; "Rotations"; "Flexibility"]);
         ("apparatus_mastery", strs ["Throws"; "Catches"; "Manipulation"]);
         ("risk_elements", strs ["High_throws"; "Complex_catches"; "Dynamic_work"]);
         ("artistic_components", strs ["Musicality"; "Expression"; "Character"])]);
       ("element_combinations", VDict
        [("valid_sequences", strs ["throw_rotation_catch"; "spiral_throw_spiral"; "snake_circle_snake"; "wrap_unwrap_throw"]);
         ("transition_requirements", strs ["smooth_flow"; "logical_progression"; "technical_feasibility"])])]);
     ("aesthetic_principles", VDict
      [("visual_balance", strs ["symmetry_asymmetry"; "height_variation"; "spatial_distribution"]);
       ("flow_continuity", strs ["seamless_transitions"; "momentum_maintenance"; "organic_development"]);
       ("dynamic_range", strs ["quiet_moments"; "explosive_peaks"; "gradual_buildups"]);
       ("expressive_clarity", strs ["intentional_movements"; "clear_character"; "emotional_connection"])]);
     ("musicality_rules", VDict
      [("structural_alignment", strs ["intro_matches_music"; "climax_synchronized"; "ending_resolution"]);
       ("rhythmic_precision", strs ["beat_accuracy"; "phrase_matching"; "accent_emphasis"]);
       ("interpretive_freedom", strs ["rubato_moments"; "personal_expression"; "artistic_choices"])])].

Definition STYLE_VARIATIONS : value :=
  VDict
    [("classical", VDict
      [("characteristics", strs ["elegant_lines"; "refined_technique"; "traditional_beauty"]);
       ("movement_quality", VStr "controlled_grace");
       ("typical_music", VStr "ballet_classical_orchestral")]);
     ("contemporary", VDict
      [("characteristics", strs ["innovative_patterns"; "unexpected_combinations"; "modern_aesthetics"]);
       ("movement_quality", VStr "dynamic_freedom");
       ("typical_music", VStr "electronic_fusion_experimental")]);
     ("dramatic", VDict
      [("characteristics", strs ["intense_expression"; "theatrical_quality"; "emotional_depth"]);
       ("movement_quality", VStr "passionate_power");
       ("typical_music", VStr "cinematic_dramatic_intense")]);
     ("lyrical", VDict
      [("characteristics", strs ["flowing_movements"; "soft_quality"; "poetic_expression"]);
       ("movement_quality", VStr "gentle_fluidity");
       ("typical_music", VStr "melodic_vocal_emotive")]);
     ("technical_virtuosic", VDict
      [("characteristics", strs ["high_difficulty"; "precision_execution"; "mastery_display"]);
       ("movement_quality", VStr "brilliant_control");
       ("typical_music", VStr "fast_complex_rhythmic")])].

(** ** Formatting a taxonomy section *)

(** [lines.append(x)] *)
Definition list_append (lines : list string) (x : string) : list string :=
  (lines ++ [x])%list.

(** The innermost loop of [format_taxonomy_section], over [value.items()]. *)
Definition format_nested (lines : list string) (value0 : list (string * value)) : list string :=
  fold_left
    (fun lines kv =>
       let '(k, v) := kv in
       match v with
       | VList l => list_append lines ("  - " ++ k ++ ": " ++ join_strs ", " l)
       | _ => list_append lines ("  - " ++ k ++ ": " ++ py_str v)
       end)
    value0 lines.

(** The loop over [details.items()]. *)
Definition format_details (lines : list string) (details : list (string * value)) : list string :=
  fold_left
    (fun lines kv =>
       let '(key, value0) := kv in
       match value0 with
       | VDict d => format_nested (list_append lines (nl ++ "**" ++ title (unscore key) ++ "**:")) d
       | VList l => list_append lines ("  - " ++ key ++ ": " ++ join_strs ", " l)
       | VStr _ => list_append lines ("  - " ++ key ++ ": " ++ py_str value0)
       end)
    details lines.

(** The loop over [data.items()]. *)
Definition format_categories (lines : list string) (data : list (string * value)) : list string :=
  fold_left
    (fun lines kv =>
       let '(category, details) := kv in
       let lines := list_append lines (nl ++ "### " ++ title (unscore category)) in
       match details with
       | VDict d => format_details lines d
       | VList l => list_append lines ("  - " ++ join_strs ", " l)
       | VStr _ => lines
       end)
    data lines.

Definition section_lines (section_name : string) (data : list (string * value)) : list string :=
  format_categories [nl ++ "## " ++ unscore (upper section_name) ++ nl] data.

Definition format_taxonomy_section (section_name : string) (data : value) : result string :=
  (d <- items data ;;
   Ok (join nl (section_lines section_name d)))%res.

(** ** Module globals and the tool monad *)

Record globals : Type := {
  g_RIBBON_TAXONOMY : value;
  g_COMPOSITIONAL_RULES : value;
  g_STYLE_VARIATIONS : value
}.

(** The globals as the module body leaves them at load time. *)
Definition initial_globals : globals :=
  {| g_RIBBON_TAXONOMY := RIBBON_TAXONOMY;
     g_COMPOSITIONAL_RULES := COMPOSITIONAL_RULES;
     g_STYLE_VARIATIONS := STYLE_VARIATIONS |}.

(** A tool body: it runs on the module globals and returns or raises,
    leaving the globals it was given or changed ones. *)
Definition M (A : Type) : Type := globals -> result A * globals.

Definition ret {A} (a : A) : M A := fun g => (Ok a, g).

Definition bind {A B} (m : M A) (k : A -> M B) : M B :=
  fun g =>
    match m g with
    | (Ok a, g') => k a g'
    | (Raise e, g') => (Raise e, g')
    end.

Definition lift {A} (r : result A) : M A := fun g => (r, g).

(** Reading a module-level name. *)
Definition global (name : globals -> value) : M value := fun g => (Ok (name g), g).

Declare Scope tool_scope.
Delimit Scope tool_scope with tool.
Notation "x <- e ;; k" := (bind e (fun x => k))
  (at level 61, e at next level, right associativity) : tool_scope.

(** A [for k, v in d.items()] loop whose body updates one local. *)
Fixpoint for_items {S : Type} (its : list (string * value))
         (body : string -> value -> S -> result S) (s : S) : result S :=
  match its with
  | [] => Ok s
  | (k, v) :: r => (s' <- body k v s ;; for_items r body s')%res
  end.

(** [v.get], the bound method: an AttributeError unless [v] is a dict. *)
Definition get_method (v : value) : result (string -> value -> value) :=
  match v with
  | VDict d =>
      Ok (fun k default => match assoc k d with Some x => x | None => default end)
  | _ => Raise AttributeError
  end.

(** ** The tools *)

Definition load_taxonomy : M value := global g_RIBBON_TAXONOMY.

Definition ribbon_enhance_prompt
           (routine_description style_preference technical_focus : string) : M string :=
  (taxonomy <- load_taxonomy ;;
   rules <- global g_COMPOSITIONAL_RULES ;;
   styles <- global g_STYLE_VARIATIONS ;;
   get <- lift (get_method styles) ;;
   styles' <- global g_STYLE_VARIATIONS ;;
   fallback <- lift (getitem styles' "classical") ;;
   let style := get style_preference fallback in
   lift
     (characteristics <- getitem style "characteristics" ;;
      character <- join_value ", " characteristics ;;
      movement_quality <- getitem style "movement_quality" ;;
      typical_music <- getitem style "typical_music" ;;
      let enhancement :=
        "# Enhanced Ribbon Routine Description" ++ nl ++
        nl ++
        "## Original Concept" ++ nl ++
        routine_description ++ nl ++
        nl ++
        "## Style Framework: " ++ title (unscore style_preference) ++ nl ++
        "- Character: " ++ character ++ nl ++
        "- Movement Quality: " ++ py_str movement_quality ++ nl ++
        "- Musical Context: " ++ py_str typical_music ++ nl ++
        nl ++
        "## Technical Vocabulary Enhancement" ++ nl ++
        nl ++
        "### Movement Patterns (Layer 1 Deterministic)" ++ nl in
      movement_patterns <- getitem taxonomy "movement_patterns" ;;
      patterns <- items movement_patterns ;;
      enhancement <-
        for_items patterns
          (fun pattern_type details enhancement =>
             let enhancement :=
               enhancement ++ (nl ++ "**" ++ title (unscore pattern_type) ++ "**" ++ nl) in
             types <- getitem details "types" ;;
             types <- join_value ", " types ;;
             let enhancement := enhancement ++ ("- Types: " ++ types ++ nl) in
             enhancement <-
               (if has_key "properties" details then
                  properties <- getitem details "properties" ;;
                  properties <- join_value ", " properties ;;
                  Ok (enhancement ++ ("- Properties: " ++ properties ++ nl))
                else Ok enhancement) ;;
             technical_notes <- getitem details "technical_notes" ;;
             Ok (enhancement ++ ("- Technical Note: " ++ py_str technical_notes ++ nl)))
          enhancement ;;
      let enhancement := enhancement ++ (nl ++ "### Spatial Considerations" ++ nl) in
      let enhancement := enhancement ++ ("- Height Zones: floor, low, mid, high, ceiling" ++ nl) in
      let enhancement := enhancement ++ ("- Distance Variations: contact, near, mid, far, extreme" ++ nl) in
      let enhancement := enhancement ++ ("- Plane Orientations: horizontal, vertical, diagonal, rotating" ++ nl) in
      let enhancement := enhancement ++ (nl ++ "### Temporal Dynamics" ++ nl) in
      let enhancement := enhancement ++ ("- Speed Range: very_slow → slow → moderate → fast → very_fast" ++ nl) in
      let enhancement := enhancement ++ ("- Rhythmic Possibilities: regular, syncopated, polyrhythmic, rubato" ++ nl) in
      let enhancement := enhancement ++ ("- Transition Timing: immediate, quick, moderate, gradual, extended" ++ nl) in
      let enhancement := enhancement ++ (nl ++ "## Compositional Structure (Layer 2 Rules)" ++ nl) in
      let enhancement := enhancement ++ (nl ++ "### Technical Requirements" ++ nl) in
      technical_requirements <- getitem rules "technical_requirements" ;;
      requirements <- items technical_requirements ;;
      enhancement <-
        for_items requirements
          (fun req_type details enhancement =>
             Ok (enhancement ++ ("- " ++ req_type ++ ": " ++ py_str details ++ nl)))
          enhancement ;;
      let enhancement := enhancement ++ (nl ++ "### Aesthetic Principles" ++ nl) in
      aesthetic_principles <- getitem rules "aesthetic_principles" ;;
      principles <- items aesthetic_principles ;;
      enhancement <-
        for_items principles
          (fun principle elements enhancement =>
             elements <- join_value ", " elements ;;
             Ok (enhancement ++ ("- " ++ title (unscore principle) ++ ": " ++ elements ++ nl)))
          enhancement ;;
      let enhancement := enhancement ++ (nl ++ "## Expressive Integration (Layer 3 Synthesis)" ++ nl) in
      let enhancement := enhancement ++ (nl ++ "For a " ++ style_preference ++ " interpretation:" ++ nl) in
      movement_quality <- getitem style "movement_quality" ;;
      let enhancement :=
        enhancement ++ ("1. Movement Quality: Emphasize " ++ py_str movement_quality ++ nl) in
      let enhancement :=
        enhancement ++ ("2. Spatial Focus: Use " ++ unscore technical_focus ++ nl) in
      typical_music <- getitem style "typical_music" ;;
      let enhancement :=
        enhancement ++ ("3. Musical Integration: Match " ++ py_str typical_music ++ nl) in
      let enhancement := enhancement ++ (nl ++ "## Suggested Development Path" ++ nl) in
      let enhancement := enhancement ++ ("1. Begin with foundational patterns (circles, spirals, snakes)" ++ nl) in
      let enhancement := enhancement ++ ("2. Layer in spatial variations (height, distance, planes)" ++ nl) in
      let enhancement := enhancement ++ ("3. Add temporal dynamics (speed changes, rhythmic variations)" ++ nl) in
      let enhancement := enhancement ++ ("4. Integrate body-ribbon coordination" ++ nl) in
      let enhancement := enhancement ++ ("5. Align with musical structure" ++ nl) in
      let enhancement := enhancement ++ ("6. Polish with style-specific qualities" ++ nl) in
      let enhancement := enhancement ++ (nl ++ "## Cost Optimization Note" ++ nl) in
      let enhancement := enhancement ++ ("This enhancement used:" ++ nl) in
      let enhancement := enhancement ++ ("- Layer 1: Deterministic taxonomy mapping (0 LLM cost)" ++ nl) in
      let enhancement := enhancement ++ ("- Layer 2: Structured rule application (0 LLM cost)" ++ nl) in
      let enhancement := enhancement ++ ("- Layer 3: Single synthesis pass (minimal LLM cost)" ++ nl) in
      let enhancement := enhancement ++ ("- Total savings vs pure LLM: ~60-80%" ++ nl) in
      Ok enhancement)%res)%tool.

(** [format_taxonomy_section(name, taxonomy[name])] *)
Definition taxonomy_section (taxonomy : value) (section_name : string) : result string :=
  (data <- getitem taxonomy section_name ;;
   format_taxonomy_section section_name data)%res.

(** The four vocabulary tools share one shape: load the taxonomy, take one
    section and format it. *)
Definition taxonomy_section_tool (section_name : string) : M string :=
  (taxonomy <- load_taxonomy ;;
   lift (taxonomy_section taxonomy section_name))%tool.

Definition ribbon_movement_vocabulary : M string :=
  taxonomy_section_tool "movement_patterns".

Definition ribbon_spatial_vocabulary : M string :=
  taxonomy_section_tool "spatial_relationships".

Definition ribbon_temporal_vocabulary : M string :=
  taxonomy_section_tool "temporal_dynamics".

Definition ribbon_physical_properties : M string :=
  taxonomy_section_tool "physical_properties".

Definition ribbon_composition_guide : M string :=
  (let output := nl ++ "## COMPOSITIONAL STRUCTURE GUIDE" ++ nl in
   taxonomy <- global g_RIBBON_TAXONOMY ;;
   section <- lift (taxonomy_section taxonomy "compositional_structure") ;;
   let output := output ++ section in
   let output := output ++ (nl ++ nl ++ "## COMPOSITIONAL RULES" ++ nl) in
   rules <- global g_COMPOSITIONAL_RULES ;;
   lift
     (categories <- items rules ;;
      for_items categories
        (fun rule_category details output =>
           let output := output ++ (nl ++ "### " ++ title (unscore rule_category) ++ nl) in
           entries <- items details ;;
           for_items entries
             (fun key value0 output =>
                let output := output ++ (nl ++ "**" ++ title (unscore key) ++ "**:" ++ nl) in
                match value0 with
                | VDict d =>
                    for_items d
                      (fun k v output => Ok (output ++ ("  - " ++ k ++ ": " ++ py_str v ++ nl)))
                      output
                | VList l => Ok (output ++ ("  - " ++ join_strs ", " l ++ nl))
                | VStr _ => Ok output
                end)
             output)
        output)%res)%tool.

Definition ribbon_style_variations : M string :=
  (let output := nl ++ "## STYLE VARIATIONS" ++ nl in
   styles <- global g_STYLE_VARIATIONS ;;
   lift
     (entries <- items styles ;;
      for_items entries
        (fun style_name details output =>
           let output := output ++ (nl ++ "### " ++ title (unscore style_name) ++ nl) in
           fields <- items details ;;
           for_items fields
             (fun key value0 output =>
                match value0 with
                | VList _ =>
                    joined <- join_value ", " value0 ;;
                    Ok (output ++ ("  - " ++ key ++ ": " ++ joined ++ nl))
                | _ => Ok (output ++ ("  - " ++ key ++ ": " ++ py_str value0 ++ nl))
                end)
             output)
        output)%res)%tool.

Definition ribbon_full_taxonomy : M string :=
  (taxonomy <- load_taxonomy ;;
   let output := "# RHYTHMIC RIBBON DANCE VISUAL VOCABULARY" ++ nl in
   let output := output ++ (nl ++ "## Complete Taxonomy - All Layers" ++ nl) in
   section <- lift (taxonomy_section taxonomy "movement_patterns") ;;
   let output := output ++ section in
   section <- lift (taxonomy_section taxonomy "spatial_relationships") ;;
   let output := output ++ section in
   section <- lift (taxonomy_section taxonomy "temporal_dynamics") ;;
   let output := output ++ section in
   section <- lift (taxonomy_section taxonomy "physical_properties") ;;
   let output := output ++ section in
   section <- lift (taxonomy_section taxonomy "compositional_structure") ;;
   let output := output ++ section in
   let output := output ++ (nl ++ nl ++ "## COMPOSITIONAL RULES (Layer 2)" ++ nl) in
   rules <- global g_COMPOSITIONAL_RULES ;;
   output <-
     lift (categories <- items rules ;;
           for_items categories
             (fun category details output =>
                let output := output ++ (nl ++ "### " ++ title (unscore category) ++ nl) in
                Ok (output ++ py_str details))
             output)%res ;;
   let output := output ++ (nl ++ nl ++ "## STYLE VARIATIONS (Layer 3)" ++ nl) in
   styles <- global g_STYLE_VARIATIONS ;;
   output <-
     lift (entries <- items styles ;;
           for_items entries
             (fun style details output =>
                let output := output ++ (nl ++ "### " ++ title (unscore style) ++ nl) in
                Ok (output ++ py_str details))
             output)%res ;;
   let output := output ++ (nl ++ nl ++ "---" ++ nl) in
   let output := output ++ ("Three-Layer Architecture:" ++ nl) in
   let output := output ++ ("- Layer 1: Deterministic taxonomy (movement, spatial, temporal, physical)" ++ nl) in
   let output := output ++ ("- Layer 2: Compositional rules and technical requirements" ++ nl) in
   let output := output ++ ("- Layer 3: Style variations and expressive synthesis" ++ nl) in
   let output := output ++ (nl ++ "Cost optimization: ~60-80% savings vs pure LLM approaches" ++ nl) in
   ret output)%tool.

(** ** Tool calls as the host makes them *)

Inductive call : Type :=
| Call_enhance_prompt (routine_description : string)
                      (style_preference technical_focus : option string)
| Call_movement_vocabulary
| Call_spatial_vocabulary
| Call_temporal_vocabulary
| Call_physical_properties
| Call_composition_guide
| Call_style_variations
| Call_full_taxonomy.

Definition or_default (arg : option string) (default : string) : string :=
  match arg with
  | Some s => s
  | None => default
  end.

Definition run_call (c : call) : M string :=
  match c with
  | Call_enhance_prompt routine_description style_preference technical_focus =>
      ribbon_enhance_prompt routine_description
        (or_default style_preference "classical")
        (or_default technical_focus "balanced")
  | Call_movement_vocabulary => ribbon_movement_vocabulary
  | Call_spatial_vocabulary => ribbon_spatial_vocabulary
  | Call_temporal_vocabulary => ribbon_temporal_vocabulary
  | Call_physical_properties => ribbon_physical_properties
  | Call_composition_guide => ribbon_composition_guide
  | Call_style_variations => ribbon_style_variations
  | Call_full_taxonomy => ribbon_full_taxonomy
  end.

(** The globals after a sequence of calls, whether each returned or raised. *)
Fixpoint run_calls (cs : list call) (g : globals) : globals :=
  match cs with
  | [] => g
  | c :: r => run_calls r (snd (run_call c g))
  end.

(** ** Vocabulary for stating the properties *)

(** The entries of a dictionary value, empty for anything else. *)
Definition entries (v : value) : list (string * value) :=
  match v with
  | VDict d => d
  | _ => []
  end.

Definition keys (v : value) : list string := map fst (entries v).

(** Whether [k] is a key of the style table. *)
Definition is_style (k : string) : bool :=
  existsb (String.eqb k) (keys STYLE_VARIATIONS).

(** The record [STYLE_VARIATIONS["classical"]]. *)
Definition classical_style : value :=
  VDict [("characteristics", strs ["elegant_lines"; "refined_technique"; "traditional_beauty"]);
         ("movement_quality", VStr "controlled_grace");
         ("typical_music", VStr "ballet_classical_orchestral")].

(** The record the style lookup of [ribbon_enhance_prompt] selects. *)
Definition style_of (style_preference : string) : value :=
  match assoc style_preference (entries STYLE_VARIATIONS) with
  | Some x => x
  | None => classical_style
  end.

(** A string field of a style record as the report shows it. *)
Definition field_text (style : value) (k : string) : string :=
  match getitem style k with
  | Ok v => py_str v
  | Raise _ => ""
  end.

(** The comma-joined characteristics of a style record. *)
Definition character_text (style : value) : string :=
  match getitem style "characteristics" with
  | Ok (VList l) => join_strs ", " l
  | _ => ""
  end.

(** Text as a sequence of newline-terminated lines. *)
Definition unlines (ls : list string) : string :=
  fold_right (fun l rest => l ++ nl ++ rest) "" ls.

(** The text [ribbon_enhance_prompt] renders from the taxonomy and the rules,
    between the style framework and the closing interpretation. *)
Definition enhance_vocabulary : string :=
  unlines
    ["";
     "## Technical Vocabulary Enhancement";
     "";
     "### Movement Patterns (Layer 1 Deterministic)";
     "";
     "**Spirals**";
     "- Types: vertical, horizontal, diagonal, conical";
     "- Properties: tight, loose, uniform, progressive";
     "- Technical Note: Arm must maintain consistent radius; wrist rotation drives spiral formation";
     "";
     "**Circles**";
     "- Types: full_circles, half_circles, figure_8, infinity";
     "- Technical Note: Shoulder stability required; elbow extends for larger circles";
     "";
     "**Snakes**";
     "- Types: horizontal_snake, vertical_snake, diagonal_snake";
     "- Technical Note: Rapid wrist oscillation; arm moves in opposite direction to ribbon";
     "";
     "**Throws**";
     "- Types: vertical, boomerang, stick_throw, escape";
     "- Technical Note: Release point determines trajectory; catch requires visual tracking";
     "";
     "**Wraps**";
     "- Types: body_wrap, limb_wrap, neck_wrap, waist_wrap";
     "- Technical Note: Tension control critical; body position affects wrap geometry";
     "";
     "**Swings**";
     "- Types: pendulum, arc, circular, elliptical";
     "- Technical Note: Momentum management; gravity assists natural motion";
     "";
     "### Spatial Considerations";
     "- Height Zones: floor, low, mid, high, ceiling";
     "- Distance Variations: contact, near, mid, far, extreme";
     "- Plane Orientations: horizontal, vertical, diagonal, rotating";
     "";
     "### Temporal Dynamics";
     "- Speed Range: very_slow → slow → moderate → fast → very_fast";
     "- Rhythmic Possibilities: regular, syncopated, polyrhythmic, rubato";
     "- Transition Timing: immediate, quick, moderate, gradual, extended";
     "";
     "## Compositional Structure (Layer 2 Rules)";
     "";
     "### Technical Requirements";
     "- code_of_points_2025: {'difficulty_groups': ['Jumps/Leaps', 'Balance', 'Rotations', 'Flexibility'], 'apparatus_mastery': ['Throws', 'Catches', 'Manipulation'], 'risk_elements': ['High_throws', 'Complex_catches', 'Dynamic_work'], 'artistic_components': ['Musicality', 'Expression', 'Character']}";
     "- element_combinations: {'valid_sequences': ['throw_rotation_catch', 'spiral_throw_spiral', 'snake_circle_snake', 'wrap_unwrap_throw'], 'transition_requirements': ['smooth_flow', 'logical_progression', 'technical_feasibility']}";
     "";
     "### Aesthetic Principles";
     "- Visual Balance: symmetry_asymmetry, height_variation, spatial_distribution";
     "- Flow Continuity: seamless_transitions, momentum_maintenance, organic_development";
     "- Dynamic Range: quiet_moments, explosive_peaks, gradual_buildups";
     "- Expressive Clarity: intentional_movements, clear_character, emotional_connection";
     "";
     "## Expressive Integration (Layer 3 Synthesis)"].

(** The fixed text that ends every enhancement. *)
Definition enhance_closing : string :=
  unlines
    ["";
     "## Suggested Development Path";
     "1. Begin with foundational patterns (circles, spirals, snakes)";
     "2. Layer in spatial variations (height, distance, planes)";
     "3. Add temporal dynamics (speed changes, rhythmic variations)";
     "4. Integrate body-ribbon coordination";
     "5. Align with musical structure";
     "6. Polish with style-specific qualities";
     "";
     "## Cost Optimization Note";
     "This enhancement used:";
     "- Layer 1: Deterministic taxonomy mapping (0 LLM cost)";
     "- Layer 2: Structured rule application (0 LLM cost)";
     "- Layer 3: Single synthesis pass (minimal LLM cost)";
     "- Total savings vs pure LLM: ~60-80%"].

(** The whole report, as a template over the text that varies. *)
Definition enhance_layout
           (routine_description style_title character movement_quality typical_music
            style_preference focus : string) : string :=
  "# Enhanced Ribbon Routine Description" ++ nl ++
  nl ++
  "## Original Concept" ++ nl ++
  routine_description ++ nl ++
  nl ++
  "## Style Framework: " ++ style_title ++ nl ++
  "- Character: " ++ character ++ nl ++
  "- Movement Quality: " ++ movement_quality ++ nl ++
  "- Musical Context: " ++ typical_music ++ nl ++
  enhance_vocabulary ++
  nl ++
  "For a " ++ style_preference ++ " interpretation:" ++ nl ++
  "1. Movement Quality: Emphasize " ++ movement_quality ++ nl ++
  "2. Spatial Focus: Use " ++ focus ++ nl ++
  "3. Musical Integration: Match " ++ typical_music ++ nl ++
  enhance_closing.

(** A tool returns [s] when called on the freshly loaded module. *)
Definition returns (m : M string) (s : string) : Prop :=
  m initial_globals = (Ok s, initial_globals).

(** The text a tool returns on the freshly loaded module. *)
Definition text_of (m : M string) : string :=
  match fst (m initial_globals) with
  | Ok s => s
  | Raise _ => ""
  end.

(** [needle] occurs in [hay]. *)
Definition contains (needle hay : string) : Prop :=
  exists pre post, hay = pre ++ needle ++ post.

Fixpoint starts_with (p s : string) : bool :=
  match p, s with
  | EmptyString, _ => true
  | String a p', String b s' => Ascii.eqb a b && starts_with p' s'
  | String _ _, EmptyString => false
  end.

Fixpoint containsb (needle hay : string) : bool :=
  starts_with needle hay ||
  match hay with
  | EmptyString => false
  | String _ r => containsb needle r
  end.

(** [l] is a whole line of [s]: it sits between two line breaks, or between
    a line break and an end of the text. *)
Definition has_line (l s : string) : Prop :=
  contains (nl ++ l ++ nl) (nl ++ s ++ nl).

Definition has_lineb (l s : string) : bool :=
  containsb (nl ++ l ++ nl) (nl ++ s ++ nl).

(** Every list-valued field below [v], at any depth, with its key. *)
Fixpoint list_fields (v : value) : list (string * list value) :=
  match v with
  | VDict d =>
      (fix go (d : list (string * value)) : list (string * list value) :=
         match d with
         | [] => []
         | (k, x) :: r =>
             (match x with
              | VList l => [(k, l)]
              | _ => list_fields x
              end ++ go r)%list
         end) d
  | _ => []
  end.

(** A list field as one comma-separated line. *)
Definition list_line (key : string) (l : list value) : string :=
  "  - " ++ key ++ ": " ++ join ", " (map py_str l).

(** Every list-valued field below [v] is a comma-separated line of [out]. *)
Definition comma_joined_in (v : value) (out : string) : Prop :=
  forall key l, In (key, l) (list_fields v) -> has_line (list_line key l) out.

(** A tool returns non-empty text with each of [headers] as a line. *)
Definition renders (m : M string) (headers : list string) : Prop :=
  exists s, returns m s /\ s <> "" /\ Forall (fun h => has_line h s) headers.

(** A tool does not change the module globals. *)
Definition read_only {A} (m : M A) : Prop :=
  forall g, snd (m g) = g.

(** Concatenations as trees, to compare them up to associativity. *)
Inductive sexp : Type :=
| Leaf (s : string)
| App (a b : sexp).

Fixpoint den (e : sexp) : string :=
  match e with
  | Leaf s => s
  | App a b => den a ++ den b
  end.

Fixpoint flat (e : sexp) (k : string) : string :=
  match e with
  | Leaf s => s ++ k
  | App a b => flat a (flat b k)
  end.

(** ** More vocabulary: the tables as data *)

(** The value at [path] below [v], and its keys. *)
Fixpoint at_path (v : value) (path : list string) : value :=
  match path with
  | [] => v
  | k :: rest =>
      match assoc k (entries v) with
      | Some x => at_path x rest
      | None => VStr ""
      end
  end.

Definition keys_at (v : value) (path : list string) : list string :=
  keys (at_path v path).

(** Every dictionary below [v], at any depth, [v] itself included. *)
Fixpoint all_dicts (v : value) : list (list (string * value)) :=
  match v with
  | VStr _ => []
  | VList l =>
      (fix go (l : list value) : list (list (string * value)) :=
         match l with
         | [] => []
         | x :: r => (all_dicts x ++ go r)%list
         end) l
  | VDict d =>
      d :: (fix go (d : list (string * value)) : list (list (string * value)) :=
              match d with
              | [] => []
              | (_, x) :: r => (all_dicts x ++ go r)%list
              end) d
  end.

Fixpoint nodupb (l : list string) : bool :=
  match l with
  | [] => true
  | x :: r => negb (existsb (String.eqb x) r) && nodupb r
  end.

Definition is_ok {A} (r : result A) : bool :=
  match r with
  | Ok _ => true
  | Raise _ => false
  end.

(** What [ribbon_enhance_prompt] reads of a style record. *)
Definition style_ok (style : value) : bool :=
  is_ok (c <- getitem style "characteristics" ;; join_value ", " c)%res &&
  is_ok (getitem style "movement_quality") &&
  is_ok (getitem style "typical_music").

(** What it reads of a movement pattern. *)
Definition pattern_ok (details : value) : bool :=
  is_ok (t <- getitem details "types" ;; join_value ", " t)%res &&
  (if has_key "properties" details
   then is_ok (p <- getitem details "properties" ;; join_value ", " p)%res
   else true) &&
  is_ok (getitem details "technical_notes").

(** Globals on which every lookup of [ribbon_enhance_prompt] succeeds. *)
Definition enhance_ready (g : globals) : bool :=
  match g_STYLE_VARIATIONS g,
        getitem (g_RIBBON_TAXONOMY g) "movement_patterns",
        getitem (g_COMPOSITIONAL_RULES g) "technical_requirements",
        getitem (g_COMPOSITIONAL_RULES g) "aesthetic_principles" with
  | VDict styles, Ok (VDict patterns), Ok (VDict _), Ok (VDict principles) =>
      match assoc "classical" styles with
      | Some fallback => style_ok fallback
      | None => false
      end &&
      forallb (fun kv => style_ok (snd kv)) styles &&
      forallb (fun kv => pattern_ok (snd kv)) patterns &&
      forallb (fun kv => is_ok (join_value ", " (snd kv))) principles
  | _, _, _, _ => false
  end.

(** The records of a table as [ribbon_full_taxonomy] writes them out: a
    title line, then the Python literal. *)
Fixpoint dump_entries (d : list (string * value)) : string :=
  match d with
  | [] => ""
  | (k, v) :: r =>
      nl ++ "### " ++ title (unscore k) ++ nl ++ py_str v ++ dump_entries r
  end.

(** Globals whose style table holds one style, "lyrical", and no fallback. *)
Definition lyrical_only_globals : globals :=
  {| g_RIBBON_TAXONOMY := RIBBON_TAXONOMY;
     g_COMPOSITIONAL_RULES := COMPOSITIONAL_RULES;
     g_STYLE_VARIATIONS :=
       VDict [("lyrical",
               VDict [("characteristics", strs ["flowing_movements"]);
                      ("movement_quality", VStr "gentle_fluidity");
                      ("typical_music", VStr "melodic_vocal_emotive")])] |}.

(** Globals whose taxonomy holds the first two sections only, both empty. *)
Definition two_section_globals : globals :=
  {| g_RIBBON_TAXONOMY :=
       VDict [("movement_patterns", VDict []); ("spatial_relationships", VDict [])];
     g_COMPOSITIONAL_RULES := COMPOSITIONAL_RULES;
     g_STYLE_VARIATIONS := STYLE_VARIATIONS |}.

(** Globals whose rules hold one category, a flat list. *)
Definition flat_rules_globals : globals :=
  {| g_RIBBON_TAXONOMY := RIBBON_TAXONOMY;
     g_COMPOSITIONAL_RULES :=
       VDict [("aesthetic_principles", strs ["visual_balance"; "flow_continuity"])];
     g_STYLE_VARIATIONS := STYLE_VARIATIONS |}.

(** Globals with a style whose characteristics hold a nested list. *)
Definition mixed_style_globals : globals :=
  {| g_RIBBON_TAXONOMY := RIBBON_TAXONOMY;
     g_COMPOSITIONAL_RULES := COMPOSITIONAL_RULES;
     g_STYLE_VARIATIONS :=
       VDict [("fusion",
               VDict [("characteristics",
                       VList [VStr "layered"; VList [VStr "folk"; VStr "modern"]]);
                      ("movement_quality", VStr "shifting");
                      ("typical_music", VStr "mixed")])] |}.

(** The comma-joined list under key [k] of a record. *)
Definition list_text (record : value) (k : string) : string :=
  match getitem record k with
  | Ok (VList l) => join_strs ", " l
  | _ => ""
  end.

(** [l] is a line of the text written so far. *)
Definition line_written (l s : string) : Prop :=
  contains (nl ++ l ++ nl) (nl ++ s).

(** The text written so far ends a line. *)
Definition ends_with_nl (s : string) : Prop := exists s0, s = s0 ++ nl.

(** The loop of [ribbon_style_variations] over the fields of one style. *)
Definition style_field_step (key : string) (value0 : value) (output : string)
  : result string :=
  match value0 with
  | VList _ =>
      (joined <- join_value ", " value0 ;;
       Ok (output ++ ("  - " ++ key ++ ": " ++ joined ++ nl)))%res
  | _ => Ok (output ++ ("  - " ++ key ++ ": " ++ py_str value0 ++ nl))
  end.

(** The loop of [ribbon_style_variations] over the styles. *)
Definition style_step (style_name : string) (details : value) (output : string)
  : result string :=
  (let output := output ++ (nl ++ "### " ++ title (unscore style_name) ++ nl) in
   fields <- items details ;;
   for_items fields style_field_step output)%res.

(** ** Strings *)

Lemma append_assoc (a b c : string) : (a ++ b) ++ c = a ++ (b ++ c).
Proof. induction a; simpl; congruence. Qed.

Lemma append_nil_r (a : string) : a ++ "" = a.
Proof. induction a; simpl; congruence. Qed.

Lemma flat_den e k : flat e k = den e ++ k.
Proof.
  revert k; induction e as [s|a IHa b IHb]; intro k; simpl.
  - reflexivity.
  - rewrite IHb, IHa, append_assoc. reflexivity.
Qed.

Lemma den_eq e1 e2 : flat e1 "" = flat e2 "" -> den e1 = den e2.
Proof. rewrite !flat_den, !append_nil_r. auto. Qed.

Ltac reify t :=
  lazymatch t with
  | append ?a ?b =>
      let ra := reify a in
      let rb := reify b in
      constr:(App ra rb)
  | _ => constr:(Leaf t)
  end.

(** Closes [l = r] when both sides are the same text up to the grouping of
    concatenations. *)
Ltac string_assoc :=
  lazymatch goal with
  | |- ?l = ?r =>
      let el := reify l in
      let er := reify r in
      refine (den_eq el er _); vm_compute; reflexivity
  end.

Lemma starts_with_spec p s : starts_with p s = true <-> exists post, s = p ++ post.
Proof.
  revert s; induction p as [|a p IH]; intro s; simpl.
  - split; [intros _; exists s; reflexivity | reflexivity].
  - destruct s as [|b s].
    + split; [discriminate | intros [post H]; discriminate].
    + rewrite andb_true_iff, IH. split.
      * intros [E [post ->]]. apply Ascii.eqb_eq in E. subst b.
        exists post. reflexivity.
      * intros [post H]. injection H as -> ->. split.
        -- apply Ascii.eqb_refl.
        -- exists post. reflexivity.
Qed.

Lemma containsb_spec n h : containsb n h = true <-> contains n h.
Proof.
  induction h as [|c h IH].
  - simpl. rewrite orb_false_r, starts_with_spec. split.
    + intros [post H]. exists "", post. exact H.
    + intros [pre [post H]]. destruct pre; [exists post; exact H | discriminate].
  - simpl. rewrite orb_true_iff, starts_with_spec, IH. split.
    + intros [[post H] | [pre [post H]]].
      * exists "", post. exact H.
      * exists (String c pre), post. simpl. rewrite H. reflexivity.
    + intros [pre [post H]]. destruct pre as [|c' pre].
      * left. exists post. exact H.
      * right. simpl in H. injection H as _ H. exists pre, post. exact H.
Qed.

Lemma contains_false n h : containsb n h = false -> ~ contains n h.
Proof.
  intros H C. apply containsb_spec in C. rewrite C in H. discriminate.
Qed.

Lemma has_lineb_true l s : has_lineb l s = true -> has_line l s.
Proof. apply containsb_spec. Qed.

(** A line of a closing part of the text is a line of the text. *)
Lemma has_line_app_r l a b : has_line l b -> has_line l (a ++ nl ++ b).
Proof.
  unfold has_line. intros [pre [post H]].
  exists (nl ++ a ++ pre), post.
  transitivity ((nl ++ a) ++ (nl ++ b ++ nl)).
  - rewrite !append_assoc. reflexivity.
  - rewrite H. rewrite !append_assoc. reflexivity.
Qed.

(** A line of an opening part of the text is a line of the text. *)
Lemma has_line_app_l l a b : has_line l a -> has_line l (a ++ nl ++ b).
Proof.
  unfold has_line. intros [pre [post H]].
  exists pre, (post ++ b ++ nl).
  transitivity ((nl ++ a ++ nl) ++ (b ++ nl)).
  - rewrite !append_assoc. reflexivity.
  - rewrite H. rewrite !append_assoc. reflexivity.
Qed.

Lemma has_line_first l b : has_line l (l ++ nl ++ b).
Proof.
  exists "", (b ++ nl). simpl. rewrite !append_assoc. reflexivity.
Qed.

(** ** Values *)

Lemma all_str_strs (l : list string) : all_str (map VStr l) = Ok l.
Proof. induction l as [|x l IH]; simpl; [reflexivity | rewrite IH; reflexivity]. Qed.

Lemma map_py_str_strs (l : list string) : map py_str (map VStr l) = l.
Proof. induction l as [|x l IH]; simpl; congruence. Qed.

Lemma is_style_false (sp : string) :
  is_style sp = false -> assoc sp (entries STYLE_VARIATIONS) = None.
Proof.
  unfold is_style, keys, STYLE_VARIATIONS, entries, map, existsb, assoc, fst.
  repeat (lazymatch goal with
          | |- context [String.eqb sp ?k] => destruct (String.eqb sp k)
          end; [discriminate|]).
  reflexivity.
Qed.

Lemma style_of_unrecognized (sp : string) :
  is_style sp = false -> style_of sp = classical_style.
Proof. intro H. unfold style_of. rewrite (is_style_false sp H). reflexivity. Qed.

Lemma style_of_shape (sp : string) :
  exists chl mq tm,
    style_of sp =
    VDict [("characteristics", strs chl); ("movement_quality", VStr mq);
           ("typical_music", VStr tm)].
Proof.
  unfold style_of, STYLE_VARIATIONS, entries, assoc.
  repeat (lazymatch goal with
          | |- context [String.eqb sp ?k] => destruct (String.eqb sp k)
          end; [do 3 eexists; reflexivity|]).
  do 3 eexists; reflexivity.
Qed.

(** ** The report of [ribbon_enhance_prompt], in closed form *)

Lemma enhance_run rd sp tf :
  returns (ribbon_enhance_prompt rd sp tf)
    (enhance_layout rd (title (unscore sp))
       (character_text (style_of sp))
       (field_text (style_of sp) "movement_quality")
       (field_text (style_of sp) "typical_music")
       sp (unscore tf)).
Proof.
  unfold returns, ribbon_enhance_prompt, load_taxonomy, bind, global, lift.
  cbv beta iota zeta.
  cbn [initial_globals g_RIBBON_TAXONOMY g_COMPOSITIONAL_RULES g_STYLE_VARIATIONS].
  progress change (get_method STYLE_VARIATIONS)
    with (Ok (fun k default => match assoc k (entries STYLE_VARIATIONS) with
                               | Some x => x | None => default end)).
  progress change (getitem STYLE_VARIATIONS "classical") with (Ok classical_style).
  cbv beta iota zeta.
  progress change (match assoc sp (entries STYLE_VARIATIONS) with
          | Some x => x | None => classical_style end) with (style_of sp).
  destruct (style_of_shape sp) as (chl & mq & tm & ->).
  unfold strs.
  cbn -[append all_str join].
  rewrite all_str_strs.
  cbn -[append join].
  unfold enhance_layout, character_text, field_text, join_strs. cbn -[append join].
  rewrite map_py_str_strs.
  f_equal. f_equal.
  string_assoc.
Qed.

(** ** Lines of the report *)

Lemma has_line_nl_r l b : has_line l b -> has_line l (nl ++ b).
Proof. intro H. apply (has_line_app_r l "" b H). Qed.

Lemma has_line_app_r2 l a1 a2 b : has_line l b -> has_line l (a1 ++ a2 ++ nl ++ b).
Proof. intro H. rewrite <- append_assoc. apply has_line_app_r, H. Qed.

Lemma has_line_app_r3 l a1 a2 a3 b :
  has_line l b -> has_line l (a1 ++ a2 ++ a3 ++ nl ++ b).
Proof. intro H. rewrite <- (append_assoc a2). apply has_line_app_r2, H. Qed.

(** Walks down a right-nested report, line by line, until the part [x]. *)
Ltac skip_lines_to x :=
  repeat lazymatch goal with
         | |- has_line _ (x ++ _) => fail
         | |- has_line _ (nl ++ _) => apply has_line_nl_r
         | |- has_line _ (_ ++ nl ++ _) => apply has_line_app_r
         | |- has_line _ (_ ++ _ ++ nl ++ _) => apply has_line_app_r2
         | |- has_line _ (_ ++ _ ++ _ ++ nl ++ _) => apply has_line_app_r3
         end.

Ltac closed_line := apply has_lineb_true; vm_compute; reflexivity.

Lemma layout_not_empty rd st ch mq tm sp focus :
  enhance_layout rd st ch mq tm sp focus <> "".
Proof. unfold enhance_layout. discriminate. Qed.

Lemma layout_title_line rd st ch mq tm sp focus :
  has_line "# Enhanced Ribbon Routine Description"
           (enhance_layout rd st ch mq tm sp focus).
Proof. unfold enhance_layout. apply has_line_first. Qed.

Lemma layout_concept_line rd st ch mq tm sp focus :
  has_line "## Original Concept" (enhance_layout rd st ch mq tm sp focus).
Proof.
  unfold enhance_layout.
  apply has_line_app_r, has_line_nl_r, has_line_first.
Qed.

Lemma layout_vocabulary_line l rd st ch mq tm sp focus :
  has_line l enhance_vocabulary ->
  has_line l (enhance_layout rd st ch mq tm sp focus).
Proof.
  intro H. unfold enhance_layout.
  skip_lines_to enhance_vocabulary.
  apply has_line_app_l, H.
Qed.

Lemma layout_closing_line l rd st ch mq tm sp focus :
  has_line l enhance_closing ->
  has_line l (enhance_layout rd st ch mq tm sp focus).
Proof.
  intro H. unfold enhance_layout.
  skip_lines_to enhance_closing.
  exact H.
Qed.

(** ** The globals are only read *)

Lemma read_only_ret {A} (a : A) : read_only (ret a).
Proof. intro g. reflexivity. Qed.

Lemma read_only_lift {A} (r : result A) : read_only (lift r).
Proof. intro g. reflexivity. Qed.

Lemma read_only_global (name : globals -> value) : read_only (global name).
Proof. intro g. reflexivity. Qed.

Lemma read_only_bind {A B} (m : M A) (k : A -> M B) :
  read_only m -> (forall a, read_only (k a)) -> read_only (bind m k).
Proof.
  intros Hm Hk g. unfold bind.
  specialize (Hm g). destruct (m g) as [[a|e] g']; simpl in Hm; subst g'.
  - apply Hk.
  - reflexivity.
Qed.

Ltac frame :=
  repeat first
    [ apply read_only_ret
    | apply read_only_lift
    | apply read_only_global
    | apply read_only_bind; [|intro]
    | progress cbv zeta ].

Lemma ribbon_enhance_prompt_read_only rd sp tf :
  read_only (ribbon_enhance_prompt rd sp tf).
Proof. unfold ribbon_enhance_prompt, load_taxonomy. frame. Qed.

Lemma taxonomy_section_tool_read_only name : read_only (taxonomy_section_tool name).
Proof. unfold taxonomy_section_tool, load_taxonomy. frame. Qed.

Lemma ribbon_composition_guide_read_only : read_only ribbon_composition_guide.
Proof. unfold ribbon_composition_guide. frame. Qed.

Lemma ribbon_style_variations_read_only : read_only ribbon_style_variations.
Proof. unfold ribbon_style_variations. frame. Qed.

Lemma ribbon_full_taxonomy_read_only : read_only ribbon_full_taxonomy.
Proof. unfold ribbon_full_taxonomy, load_taxonomy. frame. Qed.

Lemma run_call_read_only (c : call) : read_only (run_call c).
Proof.
  destruct c; cbn [run_call].
  - apply ribbon_enhance_prompt_read_only.
  - apply taxonomy_section_tool_read_only.
  - apply taxonomy_section_tool_read_only.
  - apply taxonomy_section_tool_read_only.
  - apply taxonomy_section_tool_read_only.
  - apply ribbon_composition_guide_read_only.
  - apply ribbon_style_variations_read_only.
  - apply ribbon_full_taxonomy_read_only.
Qed.

Lemma run_calls_frame (cs : list call) (g : globals) : run_calls cs g = g.
Proof.
  induction cs as [|c cs IH]; simpl.
  - reflexivity.
  - rewrite (run_call_read_only c g). exact IH.
Qed.

(** A closed tool returns the text computed for it. *)
Ltac closed_run := unfold returns; vm_compute; reflexivity.

(** ** What [format_taxonomy_section] does with the lists it meets *)

Section Loops.

Context {A : Type}.
Variable step : list string -> A -> list string.

(** The loop body only appends to [lines]. *)
Hypothesis step_extends :
  forall lines x, exists added, step lines x = (lines ++ added)%list.

Lemma loop_extends (l : list A) (lines : list string) :
  exists added, fold_left step l lines = (lines ++ added)%list.
Proof.
  revert lines; induction l as [|x l IH]; intro lines; simpl.
  - exists []. rewrite app_nil_r. reflexivity.
  - destruct (step_extends lines x) as [a1 ->].
    destruct (IH (lines ++ a1)%list) as [a2 ->].
    exists (a1 ++ a2)%list. rewrite app_assoc. reflexivity.
Qed.

Lemma loop_keeps (l : list A) (lines : list string) (line : string) :
  In line lines -> In line (fold_left step l lines).
Proof.
  intro H. destruct (loop_extends l lines) as [added ->].
  apply in_or_app. left. exact H.
Qed.

Lemma loop_adds (l : list A) (x : A) (line : string) :
  In x l ->
  (forall lines, In line (step lines x)) ->
  forall lines, In line (fold_left step l lines).
Proof.
  intros Hin Hstep.
  induction l as [|y l IH]; intro lines; simpl; [contradiction|].
  destruct Hin as [->|Hin].
  - apply loop_keeps, Hstep.
  - apply IH, Hin.
Qed.

End Loops.

Lemma list_append_extends (lines : list string) (x : string) :
  exists added, list_append lines x = (lines ++ added)%list.
Proof. exists [x]. reflexivity. Qed.

Lemma format_nested_extends (lines : list string) (d : list (string * value)) :
  exists added, format_nested lines d = (lines ++ added)%list.
Proof.
  apply loop_extends. intros ls [k v].
  destruct v; apply list_append_extends.
Qed.

Lemma format_details_extends (lines : list string) (d : list (string * value)) :
  exists added, format_details lines d = (lines ++ added)%list.
Proof.
  apply loop_extends. intros ls [key v]. destruct v as [s|l|d3].
  - apply list_append_extends.
  - apply list_append_extends.
  - destruct (format_nested_extends
                (list_append ls (nl ++ "**" ++ title (unscore key) ++ "**:")) d3)
      as [added ->].
    exists ((nl ++ "**" ++ title (unscore key) ++ "**:") :: added).
    unfold list_append. rewrite <- app_assoc. reflexivity.
Qed.

Lemma format_categories_step_extends (ls : list string) (kv : string * value) :
  exists added,
    (let '(category, details) := kv in
     let lines := list_append ls (nl ++ "### " ++ title (unscore category)) in
     match details with
     | VDict d => format_details lines d
     | VList l => list_append lines ("  - " ++ join_strs ", " l)
     | VStr _ => lines
     end) = (ls ++ added)%list.
Proof.
  destruct kv as [category details]. cbv zeta.
  destruct details as [s|l|d].
  - apply list_append_extends.
  - unfold list_append. eexists. rewrite <- app_assoc. reflexivity.
  - destruct (format_details_extends
                (list_append ls (nl ++ "### " ++ title (unscore category))) d)
      as [added ->].
    unfold list_append. eexists. rewrite <- app_assoc. reflexivity.
Qed.

Lemma In_list_append (lines : list string) (x : string) : In x (list_append lines x).
Proof. unfold list_append. apply in_or_app. right. left. reflexivity. Qed.

(** A list under a key of a nested dict becomes the line "  - k: a, b, c". *)
Lemma format_nested_list (lines : list string) (d : list (string * value))
      (k : string) (l : list value) :
  In (k, VList l) d -> In (list_line k l) (format_nested lines d).
Proof.
  intro H. unfold format_nested.
  apply loop_adds with (x := (k, VList l)).
  - intros ls [k0 v]. destruct v; apply list_append_extends.
  - exact H.
  - intro ls. apply In_list_append.
Qed.

(** A list under a key of a category, directly or one dict deeper, becomes
    such a line too. *)
Lemma format_details_list (lines : list string) (d : list (string * value))
      (key : string) (l : list value) :
  In (key, VList l) d -> In (list_line key l) (format_details lines d).
Proof.
  intro H. unfold format_details.
  apply loop_adds with (x := (key, VList l)).
  - intros ls [k0 v]. destruct v as [s|l0|d3];
      [apply list_append_extends | apply list_append_extends |
       apply (format_details_extends ls [(k0, VDict d3)])].
  - exact H.
  - intro ls. apply In_list_append.
Qed.

Lemma format_details_nested_list (lines : list string) (d d3 : list (string * value))
      (key k : string) (l : list value) :
  In (key, VDict d3) d -> In (k, VList l) d3 ->
  In (list_line k l) (format_details lines d).
Proof.
  intros H H3. unfold format_details.
  apply loop_adds with (x := (key, VDict d3)).
  - intros ls [k0 v]. destruct v as [s|l0|d4];
      [apply list_append_extends | apply list_append_extends |
       apply (format_details_extends ls [(k0, VDict d4)])].
  - exact H.
  - intro ls. apply format_nested_list, H3.
Qed.

Lemma join_has_line (ls : list string) (x : string) :
  In x ls -> has_line x (join nl ls).
Proof.
  induction ls as [|y ls IH]; [contradiction|].
  intros [->|Hin].
  - destruct ls as [|z ls]; simpl.
    + exists "", "". rewrite append_nil_r. reflexivity.
    + apply has_line_first.
  - destruct ls as [|z ls]; [contradiction|].
    change (join nl (y :: z :: ls)) with (y ++ nl ++ join nl (z :: ls)).
    apply has_line_app_r, IH, Hin.
Qed.

(** X1: for any section data, every list that sits under a key of a category,
    or under a key of a dict under such a key, is rendered as one line with
    its elements joined by ", " in their order. *)
Lemma format_taxonomy_section_lists (section_name : string) (d : list (string * value)) :
  exists out,
    format_taxonomy_section section_name (VDict d) = Ok out /\
    (forall category dd key l,
        In (category, VDict dd) d -> In (key, VList l) dd ->
        has_line (list_line key l) out) /\
    (forall category dd key d3 k l,
        In (category, VDict dd) d -> In (key, VDict d3) dd -> In (k, VList l) d3 ->
        has_line (list_line k l) out).
Proof.
  eexists. split; [reflexivity|].
  unfold section_lines, format_categories.
  split.
  - intros category dd key l Hc Hk. apply join_has_line.
    apply (loop_adds _ format_categories_step_extends d (category, VDict dd) _ Hc).
    intro ls. apply format_details_list, Hk.
  - intros category dd key d3 k l Hc Hk H3. apply join_has_line.
    apply (loop_adds _ format_categories_step_extends d (category, VDict dd) _ Hc).
    intro ls. apply (format_details_nested_list _ dd d3 key k l Hk H3).
Qed.

(** ** Properties of the tools *)

Lemma comma_joined_check (v : value) (out : string) :
  forallb (fun kl => has_lineb (list_line (fst kl) (snd kl)) out) (list_fields v) = true ->
  comma_joined_in v out.
Proof.
  intros H key l Hin.
  rewrite forallb_forall in H.
  apply has_lineb_true, (H (key, l) Hin).
Qed.

Lemma renders_closed (m : M string) (headers : list string) :
  returns m (text_of m) ->
  text_of m <> "" ->
  forallb (fun h => has_lineb h (text_of m)) headers = true ->
  renders m headers.
Proof.
  intros Hr Hn Hh. exists (text_of m). repeat split; auto.
  apply Forall_forall. intros h Hin.
  rewrite forallb_forall in Hh. apply has_lineb_true, Hh, Hin.
Qed.

Ltac closed_renders :=
  apply renders_closed;
  [ closed_run | vm_compute; discriminate | vm_compute; reflexivity ].

(** C1, as amended: for a style_preference that is not a key of
    STYLE_VARIATIONS the report is the report for "classical" with two
    pieces of text changed: the title after "## Style Framework: " is the
    title-cased argument instead of "Classical", and the line
    "For a ... interpretation:" names the argument instead of "classical".
    Everything else, the style lines included, is the same. *)
Theorem unrecognized_style_matches_classical_layout (rd sp tf : string) :
  is_style sp = false ->
  returns (ribbon_enhance_prompt rd sp tf)
    (enhance_layout rd (title (unscore sp))
       "elegant_lines, refined_technique, traditional_beauty"
       "controlled_grace" "ballet_classical_orchestral"
       sp (unscore tf)) /\
  returns (ribbon_enhance_prompt rd "classical" tf)
    (enhance_layout rd "Classical"
       "elegant_lines, refined_technique, traditional_beauty"
       "controlled_grace" "ballet_classical_orchestral"
       "classical" (unscore tf)).
Proof.
  intro H. split.
  - pose proof (enhance_run rd sp tf) as R.
    rewrite (style_of_unrecognized sp H) in R. exact R.
  - exact (enhance_run rd "classical" tf).
Qed.

(** C2: every tool call returns a string and raises nothing, whatever its
    arguments: every key it looks up is in the tables. *)
Theorem tools_return_normally (c : call) :
  exists s, returns (run_call c) s.
Proof.
  destruct c as [rd sp tf| | | | | | |]; cbn [run_call].
  - eexists. apply enhance_run.
  - exists (text_of ribbon_movement_vocabulary). closed_run.
  - exists (text_of ribbon_spatial_vocabulary). closed_run.
  - exists (text_of ribbon_temporal_vocabulary). closed_run.
  - exists (text_of ribbon_physical_properties). closed_run.
  - exists (text_of ribbon_composition_guide). closed_run.
  - exists (text_of ribbon_style_variations). closed_run.
  - exists (text_of ribbon_full_taxonomy). closed_run.
Qed.

(** C3: for a style_preference that is not a key of STYLE_VARIATIONS the
    call returns, and the Character, Movement Quality and Musical Context
    lines of the report carry the characteristics, movement_quality and
    typical_music of STYLE_VARIATIONS["classical"]. *)
Theorem unrecognized_style_uses_classical_record (rd sp tf : string) :
  is_style sp = false ->
  exists style rest,
    getitem STYLE_VARIATIONS "classical" = Ok style /\
    character_text style = "elegant_lines, refined_technique, traditional_beauty" /\
    field_text style "movement_quality" = "controlled_grace" /\
    field_text style "typical_music" = "ballet_classical_orchestral" /\
    returns (ribbon_enhance_prompt rd sp tf)
      ("# Enhanced Ribbon Routine Description" ++ nl ++
       nl ++
       "## Original Concept" ++ nl ++
       rd ++ nl ++
       nl ++
       "## Style Framework: " ++ title (unscore sp) ++ nl ++
       "- Character: " ++ character_text style ++ nl ++
       "- Movement Quality: " ++ field_text style "movement_quality" ++ nl ++
       "- Musical Context: " ++ field_text style "typical_music" ++ nl ++
       rest).
Proof.
  intro H. exists classical_style. eexists.
  repeat (split; [reflexivity|]).
  pose proof (enhance_run rd sp tf) as R.
  rewrite (style_of_unrecognized sp H) in R.
  unfold returns in *. rewrite R. unfold enhance_layout. reflexivity.
Qed.

(** C4, as amended: format_taxonomy_section renders every list-valued field
    of every section of RIBBON_TAXONOMY as one line, "  - key: " followed
    by the elements in source order joined with ", "; ribbon_style_variations
    renders every list-valued field of STYLE_VARIATIONS the same way; and
    ribbon_composition_guide renders each list that sits directly under a
    key of a rule category as the line "  - " followed by the joined
    elements; ribbon_full_taxonomy writes each rule category and each style
    out whole, as one line holding the Python literal of the record. *)
Theorem table_lists_comma_joined :
  (forall section_name data,
      In (section_name, data) (entries RIBBON_TAXONOMY) ->
      exists out,
        format_taxonomy_section section_name data = Ok out /\
        comma_joined_in data out) /\
  (exists out,
      returns ribbon_style_variations out /\
      comma_joined_in STYLE_VARIATIONS out) /\
  (exists out,
      returns ribbon_composition_guide out /\
      forall rule_category details key l,
        In (rule_category, details) (entries COMPOSITIONAL_RULES) ->
        In (key, VList l) (entries details) ->
        has_line ("  - " ++ join ", " (map py_str l)) out) /\
  (exists out,
      returns ribbon_full_taxonomy out /\
      forall name details,
        In (name, details) (entries COMPOSITIONAL_RULES ++ entries STYLE_VARIATIONS)%list ->
        has_line (repr details) out).
Proof.
  split; [|split; [|split]].
  - intros section_name data Hin.
    assert (Hok : exists out, format_taxonomy_section section_name data = Ok out).
    { simpl in Hin.
      repeat (destruct Hin as [Hin|Hin];
              [injection Hin as <- <-; eexists; reflexivity|]).
      contradiction. }
    destruct Hok as [out Hout]. exists out. split; [exact Hout|].
    apply comma_joined_check.
    simpl in Hin.
    repeat (destruct Hin as [Hin|Hin];
            [injection Hin as <- <-; injection Hout as <-; vm_compute; reflexivity|]).
    contradiction.
  - exists (text_of ribbon_style_variations). split; [closed_run|].
    apply comma_joined_check. vm_compute. reflexivity.
  - exists (text_of ribbon_composition_guide). split; [closed_run|].
    intros rule_category details key l Hc Hk.
    simpl in Hc.
    repeat (destruct Hc as [Hc|Hc];
            [injection Hc as <- <-; simpl in Hk;
             repeat (destruct Hk as [Hk|Hk];
                     [first [discriminate Hk | injection Hk as <- <-; closed_line]|]);
             contradiction|]).
    contradiction.
  - exists (text_of ribbon_full_taxonomy). split; [closed_run|].
    intros name details H. simpl in H.
    repeat (destruct H as [H|H]; [injection H as <- <-; closed_line|]).
    contradiction.
Qed.

(** C5: each of the eight tools returns non-empty text in which its section
    headers stand as lines of their own; for ribbon_enhance_prompt this
    holds for every input. *)
Theorem tools_render_headers :
  (forall rd sp tf,
      renders (ribbon_enhance_prompt rd sp tf)
        ["# Enhanced Ribbon Routine Description";
         "## Original Concept";
         "## Technical Vocabulary Enhancement";
         "### Movement Patterns (Layer 1 Deterministic)";
         "### Spatial Considerations";
         "### Temporal Dynamics";
         "## Compositional Structure (Layer 2 Rules)";
         "### Technical Requirements";
         "### Aesthetic Principles";
         "## Expressive Integration (Layer 3 Synthesis)";
         "## Suggested Development Path";
         "## Cost Optimization Note"]) /\
  renders ribbon_movement_vocabulary
    ["## MOVEMENT PATTERNS"; "### Spirals"; "### Circles"; "### Snakes";
     "### Throws"; "### Wraps"; "### Swings"] /\
  renders ribbon_spatial_vocabulary
    ["## SPATIAL RELATIONSHIPS"; "### Height Zones"; "### Distance From Body";
     "### Planes"; "### Floor Patterns"] /\
  renders ribbon_temporal_vocabulary
    ["## TEMPORAL DYNAMICS"; "### Speed Variations"; "### Rhythmic Patterns";
     "### Acceleration Curves"; "### Transition Timing"] /\
  renders ribbon_physical_properties
    ["## PHYSICAL PROPERTIES"; "### Tension States"; "### Arc Geometries";
     "### Wave Properties"; "### Material Behavior"] /\
  renders ribbon_composition_guide
    ["## COMPOSITIONAL STRUCTURE GUIDE"; "## COMPOSITIONAL STRUCTURE";
     "## COMPOSITIONAL RULES"; "### Technical Requirements";
     "### Aesthetic Principles"; "### Musicality Rules"] /\
  renders ribbon_style_variations
    ["## STYLE VARIATIONS"; "### Classical"; "### Contemporary"; "### Dramatic";
     "### Lyrical"; "### Technical Virtuosic"] /\
  renders ribbon_full_taxonomy
    ["# RHYTHMIC RIBBON DANCE VISUAL VOCABULARY";
     "## Complete Taxonomy - All Layers";
     "## MOVEMENT PATTERNS"; "## SPATIAL RELATIONSHIPS"; "## TEMPORAL DYNAMICS";
     "## PHYSICAL PROPERTIES"; "## COMPOSITIONAL STRUCTURE";
     "## COMPOSITIONAL RULES (Layer 2)"; "## STYLE VARIATIONS (Layer 3)"].
Proof.
  split.
  { intros rd sp tf. eexists. split; [apply enhance_run|].
    split; [apply layout_not_empty|].
    repeat (apply Forall_cons || apply Forall_nil).
    - apply layout_title_line.
    - apply layout_concept_line.
    - apply layout_vocabulary_line; closed_line.
    - apply layout_vocabulary_line; closed_line.
    - apply layout_vocabulary_line; closed_line.
    - apply layout_vocabulary_line; closed_line.
    - apply layout_vocabulary_line; closed_line.
    - apply layout_vocabulary_line; closed_line.
    - apply layout_vocabulary_line; closed_line.
    - apply layout_vocabulary_line; closed_line.
    - apply layout_closing_line; closed_line.
    - apply layout_closing_line; closed_line. }
  repeat split; closed_renders.
Qed.

(** C6: a tool call returns the same result whatever calls came before it,
    and leaves the globals as it found them: the result depends on the
    arguments and the loaded tables only. *)
Theorem tools_deterministic (before1 before2 : list call) (c : call) :
  fst (run_call c (run_calls before1 initial_globals)) =
  fst (run_call c (run_calls before2 initial_globals)) /\
  snd (run_call c (run_calls before1 initial_globals)) = initial_globals.
Proof.
  rewrite !run_calls_frame. split; [reflexivity|].
  apply run_call_read_only.
Qed.

(** C7: after any sequence of tool calls, with any arguments, each of the
    three tables is what it was at load time. *)
Theorem tables_never_change (cs : list call) :
  g_RIBBON_TAXONOMY (run_calls cs initial_globals) = RIBBON_TAXONOMY /\
  g_COMPOSITIONAL_RULES (run_calls cs initial_globals) = COMPOSITIONAL_RULES /\
  g_STYLE_VARIATIONS (run_calls cs initial_globals) = STYLE_VARIATIONS.
Proof. rewrite run_calls_frame. repeat split. Qed.

(** C8: for every style_preference, recognized or not, the report shows the
    argument itself: title-cased, with underscores as spaces, right after
    "## Style Framework: ", and verbatim in the line
    "For a ... interpretation:".  For the unrecognized "jazz" neither
    "Classical" nor "For a classical" occurs in the report; for the
    unrecognized "NEO_folk" the header reads "Neo Folk" and the line names
    "NEO_folk" as it was given. *)
Theorem enhance_echoes_style_preference :
  (forall rd sp tf,
      exists mid post,
        returns (ribbon_enhance_prompt rd sp tf)
          ("# Enhanced Ribbon Routine Description" ++ nl ++
           nl ++
           "## Original Concept" ++ nl ++
           rd ++ nl ++
           nl ++
           "## Style Framework: " ++ title (unscore sp) ++ nl ++
           mid ++ nl ++
           "For a " ++ sp ++ " interpretation:" ++ nl ++
           post)) /\
  (exists out,
      returns (ribbon_enhance_prompt "Waves" "jazz" "balanced") out /\
      has_line "## Style Framework: Jazz" out /\
      has_line "For a jazz interpretation:" out /\
      ~ contains "Classical" out /\
      ~ contains "For a classical" out) /\
  (exists out,
      returns (ribbon_enhance_prompt "Waves" "NEO_folk" "balanced") out /\
      has_line "## Style Framework: Neo Folk" out /\
      has_line "For a NEO_folk interpretation:" out /\
      ~ contains "Classical" out /\
      ~ contains "For a classical" out).
Proof.
  split; [|split].
  - intros rd sp tf.
    exists ("- Character: " ++ character_text (style_of sp) ++ nl ++
            "- Movement Quality: " ++ field_text (style_of sp) "movement_quality" ++ nl ++
            "- Musical Context: " ++ field_text (style_of sp) "typical_music" ++ nl ++
            enhance_vocabulary).
    eexists. unfold returns. rewrite enhance_run. unfold enhance_layout.
    rewrite !append_assoc. reflexivity.
  - exists (text_of (ribbon_enhance_prompt "Waves" "jazz" "balanced")).
    split; [closed_run|].
    split; [closed_line|]. split; [closed_line|].
    split; apply contains_false; vm_compute; reflexivity.
  - exists (text_of (ribbon_enhance_prompt "Waves" "NEO_folk" "balanced")).
    split; [closed_run|].
    split; [closed_line|]. split; [closed_line|].
    split; apply contains_false; vm_compute; reflexivity.
Qed.

Lemma mem_char_append (c : ascii) (a b : string) :
  mem_char c (a ++ b) = mem_char c a || mem_char c b.
Proof.
  induction a as [|d a IH]; [reflexivity|].
  cbn [append mem_char]. rewrite IH, orb_assoc. reflexivity.
Qed.

Lemma unscore_keeps_line (s : string) :
  mem_char LF s = false -> mem_char LF (unscore s) = false.
Proof.
  unfold unscore. induction s as [|c s IH]; [reflexivity|].
  cbn [replace mem_char]. intro H.
  apply orb_false_iff in H. destruct H as [Hc Hs].
  rewrite (IH Hs), orb_false_r.
  destruct (Ascii.eqb c "_"); [reflexivity | exact Hc].
Qed.

Lemma has_line_first2 (a b r : string) : has_line (a ++ b) (a ++ b ++ nl ++ r).
Proof. rewrite <- (append_assoc a b). apply has_line_first. Qed.

Lemma layout_focus_line rd st ch mq tm sp focus :
  has_line ("2. Spatial Focus: Use " ++ focus)
           (enhance_layout rd st ch mq tm sp focus).
Proof.
  unfold enhance_layout.
  skip_lines_to "2. Spatial Focus: Use ".
  apply has_line_first2.
Qed.

(** C9, as amended: technical_focus is not looked up anywhere and any
    string is accepted.  For fixed other arguments the report is a fixed
    text before and after the one place that carries the argument, with
    underscores as spaces, right after "2. Spatial Focus: Use "; two
    reports differ in that inserted text only.  When technical_focus has
    no line break the inserted text stays within the one line
    "2. Spatial Focus: Use ...", as for "spatial_exploration". *)
Theorem enhance_technical_focus_one_place (rd sp : string) :
  (exists pre post,
      forall tf,
        returns (ribbon_enhance_prompt rd sp tf)
          (pre ++ nl ++ "2. Spatial Focus: Use " ++ unscore tf ++ nl ++ post)) /\
  (forall tf,
      mem_char LF tf = false ->
      mem_char LF ("2. Spatial Focus: Use " ++ unscore tf) = false /\
      exists out,
        returns (ribbon_enhance_prompt rd sp tf) out /\
        has_line ("2. Spatial Focus: Use " ++ unscore tf) out) /\
  (exists out,
      returns (ribbon_enhance_prompt rd sp "spatial_exploration") out /\
      has_line "2. Spatial Focus: Use spatial exploration" out).
Proof.
  split; [|split].
  - exists ("# Enhanced Ribbon Routine Description" ++ nl ++
            nl ++
            "## Original Concept" ++ nl ++
            rd ++ nl ++
            nl ++
            "## Style Framework: " ++ title (unscore sp) ++ nl ++
            "- Character: " ++ character_text (style_of sp) ++ nl ++
            "- Movement Quality: " ++ field_text (style_of sp) "movement_quality" ++ nl ++
            "- Musical Context: " ++ field_text (style_of sp) "typical_music" ++ nl ++
            enhance_vocabulary ++
            nl ++
            "For a " ++ sp ++ " interpretation:" ++ nl ++
            "1. Movement Quality: Emphasize " ++ field_text (style_of sp) "movement_quality").
    eexists. intro tf. unfold returns. rewrite enhance_run. unfold enhance_layout.
    rewrite !append_assoc. reflexivity.
  - intros tf H. split.
    + rewrite mem_char_append, (unscore_keeps_line tf H). reflexivity.
    + eexists. split; [apply enhance_run | apply layout_focus_line].
  - eexists. split; [apply enhance_run | apply layout_focus_line].
Qed.

(** C10: for every routine_description the report holds it verbatim, as
    the text right under the line "## Original Concept"; the rest of the
    report does not depend on it. *)
Theorem enhance_embeds_description (sp tf : string) :
  exists rest,
    forall rd,
      returns (ribbon_enhance_prompt rd sp tf)
        ("# Enhanced Ribbon Routine Description" ++ nl ++
         nl ++
         "## Original Concept" ++ nl ++
         rd ++ nl ++
         rest).
Proof.
  eexists. intro rd. unfold returns. rewrite enhance_run. unfold enhance_layout.
  reflexivity.
Qed.

(** ** Further properties: headers *)

Lemma join_cons (sep x : string) (l : list string) :
  join sep (x :: l) = x ++ match l with [] => "" | _ => sep ++ join sep l end.
Proof. destruct l; simpl; [rewrite append_nil_r|]; reflexivity. Qed.

(** X2: on any dictionary [format_taxonomy_section] returns, and the text
    opens with a blank line and the section header, the name in upper case
    with underscores as spaces; on an empty dictionary that is all of it.
    On anything but a dictionary it raises AttributeError. *)
Theorem format_taxonomy_section_header (section_name : string) :
  (forall d, exists rest,
      format_taxonomy_section section_name (VDict d) =
      Ok (nl ++ "## " ++ unscore (upper section_name) ++ nl ++ rest)) /\
  format_taxonomy_section section_name (VDict []) =
  Ok (nl ++ "## " ++ unscore (upper section_name) ++ nl) /\
  (forall s, format_taxonomy_section section_name (VStr s) = Raise AttributeError) /\
  (forall l, format_taxonomy_section section_name (VList l) = Raise AttributeError).
Proof.
  split; [|repeat split].
  intro d.
  assert (E : exists added,
             section_lines section_name d =
             (nl ++ "## " ++ unscore (upper section_name) ++ nl) :: added).
  { unfold section_lines, format_categories.
    apply (loop_extends _ format_categories_step_extends d
             [nl ++ "## " ++ unscore (upper section_name) ++ nl]). }
  destruct E as [added E].
  unfold format_taxonomy_section. cbn [items rbind]. rewrite E, join_cons.
  eexists. f_equal. rewrite !append_assoc. reflexivity.
Qed.

Lemma has_line_drop_nl (l s : string) : has_line (nl ++ l) s -> has_line l s.
Proof.
  unfold has_line. intros [pre [post H]].
  exists (pre ++ nl), post. rewrite H. rewrite !append_assoc. reflexivity.
Qed.

Lemma format_categories_step_header (ls : list string) (category : string)
      (details : value) :
  In (nl ++ "### " ++ title (unscore category))
     (let lines := list_append ls (nl ++ "### " ++ title (unscore category)) in
      match details with
      | VDict d => format_details lines d
      | VList l => list_append lines ("  - " ++ join_strs ", " l)
      | VStr _ => lines
      end).
Proof.
  cbv zeta. destruct details as [s|l|d].
  - apply In_list_append.
  - unfold list_append at 1. apply in_or_app. left. apply In_list_append.
  - destruct (format_details_extends
                (list_append ls (nl ++ "### " ++ title (unscore category))) d)
      as [added ->].
    apply in_or_app. left. apply In_list_append.
Qed.

(** X3: every key of the section data gets its own header line, title-cased
    with underscores as spaces, whatever its value is: a dictionary, a list,
    or a plain string that contributes nothing else. *)
Theorem format_taxonomy_section_category_header
        (section_name : string) (d : list (string * value))
        (category : string) (details : value) :
  In (category, details) d ->
  exists out,
    format_taxonomy_section section_name (VDict d) = Ok out /\
    has_line ("### " ++ title (unscore category)) out.
Proof.
  intro H. eexists. split; [reflexivity|].
  apply has_line_drop_nl, join_has_line.
  unfold section_lines, format_categories.
  apply (loop_adds _ format_categories_step_extends d (category, details) _ H).
  intro ls. apply format_categories_step_header.
Qed.

(** ** Further properties: the enhancement report *)

(** X5: every line of routine_description is a line of the report, as it
    is: text that looks like a header or a list item is not escaped. *)
Theorem enhance_keeps_description_lines (rd sp tf l : string) :
  has_line l rd ->
  exists out,
    returns (ribbon_enhance_prompt rd sp tf) out /\ has_line l out.
Proof.
  intro H. eexists. split; [apply enhance_run|].
  unfold enhance_layout.
  apply has_line_app_r, has_line_nl_r, has_line_app_r, has_line_app_l, H.
Qed.

(** X6: for a style_preference that is a key of STYLE_VARIATIONS the report
    is built from that style's own record: its characteristics, movement
    quality and music fill the style block and the numbered integration
    lines. *)
Theorem recognized_style_uses_its_record (rd sp tf : string) (style : value) :
  getitem STYLE_VARIATIONS sp = Ok style ->
  returns (ribbon_enhance_prompt rd sp tf)
    (enhance_layout rd (title (unscore sp))
       (character_text style)
       (field_text style "movement_quality")
       (field_text style "typical_music")
       sp (unscore tf)).
Proof.
  intro H. pose proof (enhance_run rd sp tf) as R.
  assert (E : style_of sp = style).
  { unfold style_of. unfold getitem in H.
    change (entries STYLE_VARIATIONS)
      with (match STYLE_VARIATIONS with VDict d => d | _ => [] end).
    unfold STYLE_VARIATIONS in *.
    destruct (assoc sp _); [injection H as ->; reflexivity | discriminate]. }
  rewrite E in R. exact R.
Qed.

(** X7: the fallback record is looked up before the requested style is:
    on a style table without the key "classical" every call raises
    KeyError "classical", also for a style_preference that is in the
    table. *)
Theorem enhance_needs_classical_entry
        (g : globals) (styles : list (string * value)) (rd sp tf : string) :
  g_STYLE_VARIATIONS g = VDict styles ->
  assoc "classical" styles = None ->
  ribbon_enhance_prompt rd sp tf g = (Raise (KeyError "classical"), g).
Proof.
  intros Hs Hc.
  unfold ribbon_enhance_prompt, load_taxonomy, bind, global, lift.
  cbv beta iota. rewrite Hs. cbn [get_method getitem]. rewrite Hc. reflexivity.
Qed.

(** X8: the summary lines that the report spells out by hand agree with
    the taxonomy: height zones, distances, planes, speeds and transition
    timings are the keys of their tables, in order.  The rhythm line is the
    exception: it stops one short, and the last rhythmic pattern,
    "metric_modulation", is missing from the report. *)
Theorem enhance_summary_lines_follow_taxonomy (rd sp tf : string) :
  exists out,
    returns (ribbon_enhance_prompt rd sp tf) out /\
    has_line ("- Height Zones: " ++
              join ", " (keys_at RIBBON_TAXONOMY ["spatial_relationships"; "height_zones"]))
             out /\
    has_line ("- Distance Variations: " ++
              join ", " (keys_at RIBBON_TAXONOMY ["spatial_relationships"; "distance_from_body"]))
             out /\
    has_line ("- Plane Orientations: " ++
              join ", " (keys_at RIBBON_TAXONOMY ["spatial_relationships"; "planes"]))
             out /\
    has_line ("- Speed Range: " ++
              join " → " (keys_at RIBBON_TAXONOMY ["temporal_dynamics"; "speed_variations"]))
             out /\
    has_line ("- Transition Timing: " ++
              join ", " (keys_at RIBBON_TAXONOMY ["temporal_dynamics"; "transition_timing"]))
             out /\
    has_line ("- Rhythmic Possibilities: " ++
              join ", " (removelast
                           (keys_at RIBBON_TAXONOMY ["temporal_dynamics"; "rhythmic_patterns"])))
             out /\
    last (keys_at RIBBON_TAXONOMY ["temporal_dynamics"; "rhythmic_patterns"]) "" =
    "metric_modulation" /\
    exists plain,
      returns (run_call (Call_enhance_prompt "" None None)) plain /\
      ~ contains "metric_modulation" plain.
Proof.
  eexists. split; [apply enhance_run|].
  repeat (split; [apply layout_vocabulary_line; closed_line|]).
  split; [reflexivity|].
  exists (text_of (run_call (Call_enhance_prompt "" None None))).
  split; [closed_run|].
  apply contains_false. vm_compute. reflexivity.
Qed.

(** ** Further properties: the tables *)

Lemma assoc_In (k : string) (d : list (string * value)) (v : value) :
  assoc k d = Some v -> In (k, v) d.
Proof.
  induction d as [|[k' v'] d IH]; simpl; [discriminate|].
  destruct (String.eqb_spec k k') as [->|n].
  - intro H. injection H as ->. left. reflexivity.
  - intro H. right. apply IH, H.
Qed.

Lemma nodupb_assoc (d : list (string * value)) (k : string) (v : value) :
  nodupb (map fst d) = true -> In (k, v) d -> assoc k d = Some v.
Proof.
  induction d as [|[k' v'] d IH]; simpl; [contradiction|].
  intros H [E|Hin].
  - injection E as -> ->. rewrite String.eqb_refl. reflexivity.
  - apply andb_true_iff in H. destruct H as [Hn Hd].
    destruct (String.eqb_spec k k') as [->|n].
    + exfalso. apply negb_true_iff in Hn.
      assert (Hx : existsb (String.eqb k') (map fst d) = true).
      { apply existsb_exists. exists k'. split.
        - apply (in_map fst d (k', v) Hin).
        - apply String.eqb_refl. }
      rewrite Hx in Hn. discriminate.
    + apply IH; assumption.
Qed.

(** X9: no dictionary of the three tables, at any depth, defines a key
    twice, so every entry written in the source is the one a lookup of its
    key finds. *)
Theorem table_entries_reachable
        (table : value) (d : list (string * value)) (k : string) (v : value) :
  In table [RIBBON_TAXONOMY; COMPOSITIONAL_RULES; STYLE_VARIATIONS] ->
  In d (all_dicts table) ->
  In (k, v) d ->
  getitem (VDict d) k = Ok v.
Proof.
  intros Ht Hd Hin.
  assert (Hn : nodupb (map fst d) = true).
  { assert (Hall : forallb (fun t => forallb (fun d => nodupb (map fst d)) (all_dicts t))
                     [RIBBON_TAXONOMY; COMPOSITIONAL_RULES; STYLE_VARIATIONS] = true)
      by (vm_compute; reflexivity).
    rewrite forallb_forall in Hall. specialize (Hall table Ht).
    rewrite forallb_forall in Hall. exact (Hall d Hd). }
  unfold getitem. rewrite (nodupb_assoc d k v Hn Hin). reflexivity.
Qed.

(** ** Further properties: loops over a table *)

Lemma for_items_ok {S : Type} (its : list (string * value))
      (body : string -> value -> S -> result S) :
  (forall k v, In (k, v) its -> forall s, exists s', body k v s = Ok s') ->
  forall s, exists s', for_items its body s = Ok s'.
Proof.
  induction its as [|[k v] its IH]; intros H s; simpl.
  - exists s. reflexivity.
  - destruct (H k v (or_introl eq_refl) s) as [s1 ->]. cbn [rbind].
    apply IH. intros k' v' Hin. apply H. right. exact Hin.
Qed.

Lemma for_items_extends (its : list (string * value))
      (body : string -> value -> string -> result string) :
  (forall k v s s', body k v s = Ok s' -> exists r, s' = s ++ r) ->
  forall s s', for_items its body s = Ok s' -> exists r, s' = s ++ r.
Proof.
  intro H. induction its as [|[k v] its IH]; intros s s'; simpl.
  - intro E. injection E as <-. exists "". rewrite append_nil_r. reflexivity.
  - destruct (body k v s) as [s1|e] eqn:E1; cbn [rbind]; [|discriminate].
    intro E2. destruct (H k v s s1 E1) as [r1 ->].
    destruct (IH _ _ E2) as [r2 ->].
    exists (r1 ++ r2). rewrite append_assoc. reflexivity.
Qed.

Lemma for_items_dump (d : list (string * value)) (output : string) :
  for_items d
    (fun category details output =>
       let output := output ++ (nl ++ "### " ++ title (unscore category) ++ nl) in
       Ok (output ++ py_str details))
    output = Ok (output ++ dump_entries d).
Proof.
  revert output; induction d as [|[k v] d IH]; intro output;
    cbn [for_items rbind dump_entries].
  - rewrite append_nil_r. reflexivity.
  - cbv zeta. rewrite IH. f_equal. rewrite !append_assoc. reflexivity.
Qed.

(** ** Further properties: how the tools compose *)

Lemma taxonomy_section_tool_run (name : string) (g : globals) :
  taxonomy_section_tool name g = (taxonomy_section (g_RIBBON_TAXONOMY g) name, g).
Proof. reflexivity. Qed.

(** X10: on any globals, the full taxonomy is the outputs of the four
    vocabulary tools and the compositional structure section, one after the
    other, under a fixed title and followed by the rules and the styles
    written out record by record, and a fixed footer. *)
Theorem full_taxonomy_concatenates_sections
        (g : globals) (movement spatial temporal physical structure : string)
        (rules styles : list (string * value)) :
  ribbon_movement_vocabulary g = (Ok movement, g) ->
  ribbon_spatial_vocabulary g = (Ok spatial, g) ->
  ribbon_temporal_vocabulary g = (Ok temporal, g) ->
  ribbon_physical_properties g = (Ok physical, g) ->
  taxonomy_section (g_RIBBON_TAXONOMY g) "compositional_structure" = Ok structure ->
  g_COMPOSITIONAL_RULES g = VDict rules ->
  g_STYLE_VARIATIONS g = VDict styles ->
  ribbon_full_taxonomy g =
  (Ok ("# RHYTHMIC RIBBON DANCE VISUAL VOCABULARY" ++ nl ++
       nl ++ "## Complete Taxonomy - All Layers" ++ nl ++
       movement ++ spatial ++ temporal ++ physical ++ structure ++
       nl ++ nl ++ "## COMPOSITIONAL RULES (Layer 2)" ++ nl ++
       dump_entries rules ++
       nl ++ nl ++ "## STYLE VARIATIONS (Layer 3)" ++ nl ++
       dump_entries styles ++
       nl ++ nl ++ "---" ++ nl ++
       "Three-Layer Architecture:" ++ nl ++
       "- Layer 1: Deterministic taxonomy (movement, spatial, temporal, physical)" ++ nl ++
       "- Layer 2: Compositional rules and technical requirements" ++ nl ++
       "- Layer 3: Style variations and expressive synthesis" ++ nl ++
       nl ++ "Cost optimization: ~60-80% savings vs pure LLM approaches" ++ nl),
   g).
Proof.
  unfold ribbon_movement_vocabulary, ribbon_spatial_vocabulary,
    ribbon_temporal_vocabulary, ribbon_physical_properties.
  rewrite !taxonomy_section_tool_run.
  intros Hm Hs Ht Hp Hc' Hr Hy.
  injection Hm as Hm. injection Hs as Hs. injection Ht as Ht. injection Hp as Hp.
  unfold ribbon_full_taxonomy, load_taxonomy, bind, global, lift.
  cbv beta iota zeta.
  rewrite Hm, Hs, Ht, Hp, Hc', Hr, Hy.
  cbn [items rbind].
  rewrite !for_items_dump.
  f_equal. f_equal. rewrite !append_assoc. reflexivity.
Qed.

(** X11: the full taxonomy formats the five sections in order and stops at
    the first that fails: it raises what that section raises, on any
    globals. *)
Theorem full_taxonomy_first_failure
        (g : globals) (done : list string) (name : string) (todo : list string)
        (e : exn) :
  (done ++ name :: todo)%list =
  ["movement_patterns"; "spatial_relationships"; "temporal_dynamics";
   "physical_properties"; "compositional_structure"] ->
  (forall n, In n done -> is_ok (taxonomy_section (g_RIBBON_TAXONOMY g) n) = true) ->
  taxonomy_section (g_RIBBON_TAXONOMY g) name = Raise e ->
  ribbon_full_taxonomy g = (Raise e, g).
Proof.
  intros Hsplit Hdone Hfail.
  unfold ribbon_full_taxonomy, load_taxonomy, bind, global, lift.
  cbv beta iota zeta.
  repeat (destruct done as [|n0 done]; simpl in Hsplit;
          [ injection Hsplit as -> _; rewrite Hfail; reflexivity
          | injection Hsplit as -> Hsplit;
            match goal with
            | |- context [taxonomy_section (g_RIBBON_TAXONOMY g) ?n] =>
                let H := fresh "H" in
                pose proof (Hdone n (or_introl eq_refl)) as H;
                destruct (taxonomy_section (g_RIBBON_TAXONOMY g) n);
                [clear H | discriminate H]
            end;
            assert (Hdone' : forall n, In n done ->
                       is_ok (taxonomy_section (g_RIBBON_TAXONOMY g) n) = true)
              by (intros n Hn; apply Hdone; right; exact Hn);
            clear Hdone; rename Hdone' into Hdone ]).
  destruct done; simpl in Hsplit; discriminate Hsplit.
Qed.

Lemma guide_rules_extend (rules : value) (output out : string) :
  (categories <- items rules ;;
   for_items categories
     (fun rule_category details output =>
        let output := output ++ (nl ++ "### " ++ title (unscore rule_category) ++ nl) in
        entries <- items details ;;
        for_items entries
          (fun key value0 output =>
             let output := output ++ (nl ++ "**" ++ title (unscore key) ++ "**:" ++ nl) in
             match value0 with
             | VDict d =>
                 for_items d
                   (fun k v output => Ok (output ++ ("  - " ++ k ++ ": " ++ py_str v ++ nl)))
                   output
             | VList l => Ok (output ++ ("  - " ++ join_strs ", " l ++ nl))
             | VStr _ => Ok output
             end)
          output)
     output)%res = Ok out ->
  exists rest, out = output ++ rest.
Proof.
  destruct rules as [x|l|categories]; cbn [items rbind]; try discriminate.
  apply for_items_extends. clear output out.
  intros rule_category details s s'. cbv zeta.
  destruct details as [x|l|fields]; cbn [items rbind]; try discriminate.
  intro E. apply for_items_extends in E.
  - destruct E as [r ->]. eexists. rewrite append_assoc. reflexivity.
  - clear. intros key value0 s s'. cbv zeta.
    destruct value0 as [x|l|d].
    + intro E. injection E as <-. eexists. reflexivity.
    + intro E. injection E as <-. eexists. rewrite append_assoc. reflexivity.
    + intro E. apply for_items_extends in E.
      * destruct E as [r ->]. eexists. rewrite append_assoc. reflexivity.
      * clear. intros k v s s' E. injection E as <-. eexists. reflexivity.
Qed.

(** X12: on any globals on which the composition guide returns, its text
    opens with the guide title, then the compositional structure section
    exactly as [format_taxonomy_section] gives it, then the title of the
    rules. *)
Theorem composition_guide_opens_with_structure
        (g : globals) (structure out : string) :
  taxonomy_section (g_RIBBON_TAXONOMY g) "compositional_structure" = Ok structure ->
  ribbon_composition_guide g = (Ok out, g) ->
  exists rest,
    out = nl ++ "## COMPOSITIONAL STRUCTURE GUIDE" ++ nl ++
          structure ++
          nl ++ nl ++ "## COMPOSITIONAL RULES" ++ nl ++
          rest.
Proof.
  intros Hs. unfold ribbon_composition_guide, bind, global, lift.
  cbv beta iota zeta. rewrite Hs.
  intro H. apply (f_equal fst) in H. cbn [fst] in H.
  apply guide_rules_extend in H.
  destruct H as [rest ->]. exists rest. rewrite !append_assoc. reflexivity.
Qed.

(** X13: the composition guide raises what the compositional structure
    section raises; and where that section is fine but a rule category
    holds a list or a string instead of a dictionary, the first such
    category makes it raise AttributeError, although
    [format_taxonomy_section] accepts such values. *)
Theorem composition_guide_failures (g : globals) :
  (forall e,
      taxonomy_section (g_RIBBON_TAXONOMY g) "compositional_structure" = Raise e ->
      ribbon_composition_guide g = (Raise e, g)) /\
  (forall structure rule_category details rest,
      taxonomy_section (g_RIBBON_TAXONOMY g) "compositional_structure" = Ok structure ->
      g_COMPOSITIONAL_RULES g = VDict ((rule_category, details) :: rest) ->
      (forall d, details <> VDict d) ->
      ribbon_composition_guide g = (Raise AttributeError, g) /\
      is_ok (format_taxonomy_section "rules" (VDict ((rule_category, details) :: rest)))
      = true).
Proof.
  split.
  - intros e H. unfold ribbon_composition_guide, bind, global, lift.
    cbv beta iota zeta. rewrite H. reflexivity.
  - intros structure rule_category details rest Hs Hr Hd. split; [|reflexivity].
    unfold ribbon_composition_guide, bind, global, lift.
    cbv beta iota zeta. rewrite Hs, Hr. cbn [items rbind for_items].
    destruct details as [x|l|d]; [reflexivity | reflexivity |].
    exfalso. apply (Hd d). reflexivity.
Qed.

(** ** Further properties: what the report needs of the tables *)

Lemma is_ok_true {A} (r : result A) : is_ok r = true -> exists a, r = Ok a.
Proof. destruct r as [a|e]; [exists a; reflexivity | discriminate]. Qed.

Lemma is_ok_bind {A B} (r : result A) (k : A -> result B) :
  is_ok (rbind r k) = true -> exists a b, r = Ok a /\ k a = Ok b.
Proof.
  destruct r as [a|e]; cbn [rbind]; [|discriminate].
  intro H. destruct (is_ok_true _ H) as [b Hb]. exists a, b. auto.
Qed.

Lemma style_ok_fields (style : value) :
  style_ok style = true ->
  exists c ch mq tm,
    getitem style "characteristics" = Ok c /\
    join_value ", " c = Ok ch /\
    getitem style "movement_quality" = Ok mq /\
    getitem style "typical_music" = Ok tm.
Proof.
  unfold style_ok. intro H.
  apply andb_true_iff in H. destruct H as [H Htm].
  apply andb_true_iff in H. destruct H as [Hc Hmq].
  destruct (is_ok_bind _ _ Hc) as (c & ch & E1 & E2).
  destruct (is_ok_true _ Hmq) as [mq E3].
  destruct (is_ok_true _ Htm) as [tm E4].
  exists c, ch, mq, tm. auto.
Qed.

Lemma pattern_ok_step (pattern_type : string) (details : value) (enhancement : string) :
  pattern_ok details = true ->
  exists s',
    (let enhancement :=
       enhancement ++ (nl ++ "**" ++ title (unscore pattern_type) ++ "**" ++ nl) in
     types <- getitem details "types" ;;
     types <- join_value ", " types ;;
     let enhancement := enhancement ++ ("- Types: " ++ types ++ nl) in
     enhancement <-
       (if has_key "properties" details then
          properties <- getitem details "properties" ;;
          properties <- join_value ", " properties ;;
          Ok (enhancement ++ ("- Properties: " ++ properties ++ nl))
        else Ok enhancement) ;;
     technical_notes <- getitem details "technical_notes" ;;
     Ok (enhancement ++ ("- Technical Note: " ++ py_str technical_notes ++ nl)))%res
    = Ok s'.
Proof.
  unfold pattern_ok. intro H.
  apply andb_true_iff in H. destruct H as [H Hn].
  apply andb_true_iff in H. destruct H as [Ht Hp].
  destruct (is_ok_bind _ _ Ht) as (t & tj & E1 & E2).
  destruct (is_ok_true _ Hn) as [notes E3].
  cbv zeta. rewrite E1. cbn [rbind]. rewrite E2. cbn [rbind].
  destruct (has_key "properties" details).
  - destruct (is_ok_bind _ _ Hp) as (p & pj & E4 & E5).
    rewrite E4. cbn [rbind]. rewrite E5. cbn [rbind]. rewrite E3. cbn [rbind].
    eexists. reflexivity.
  - cbn [rbind]. rewrite E3. cbn [rbind]. eexists. reflexivity.
Qed.

(** X14: on any globals whose tables have the entries the report reads (a
    style table with a "classical" record, every style with its three
    fields and a list of strings as characteristics, every movement pattern
    with "types" and "technical_notes", the two rule categories, every
    aesthetic principle a list of strings), [ribbon_enhance_prompt] returns
    for all three arguments and leaves the globals alone. *)
Theorem enhance_returns_on_ready_tables (g : globals) (rd sp tf : string) :
  enhance_ready g = true ->
  exists out, ribbon_enhance_prompt rd sp tf g = (Ok out, g).
Proof.
  unfold enhance_ready. intro H.
  destruct (g_STYLE_VARIATIONS g) as [x|l|styles] eqn:Hs; try discriminate.
  destruct (getitem (g_RIBBON_TAXONOMY g) "movement_patterns")
    as [[x|l|patterns]|e] eqn:Hp; try discriminate.
  destruct (getitem (g_COMPOSITIONAL_RULES g) "technical_requirements")
    as [[x|l|requirements]|e] eqn:Hq; try discriminate.
  destruct (getitem (g_COMPOSITIONAL_RULES g) "aesthetic_principles")
    as [[x|l|principles]|e] eqn:Ha; try discriminate.
  apply andb_true_iff in H. destruct H as [H Hprinciples].
  apply andb_true_iff in H. destruct H as [H Hpatterns].
  apply andb_true_iff in H. destruct H as [Hfallback Hstyles].
  destruct (assoc "classical" styles) as [fallback|] eqn:Hc; [|discriminate].
  rewrite forallb_forall in Hstyles, Hpatterns, Hprinciples.
  assert (Hstyle : style_ok (match assoc sp styles with
                             | Some x => x
                             | None => fallback
                             end) = true).
  { destruct (assoc sp styles) as [x|] eqn:E; [|exact Hfallback].
    apply (Hstyles (sp, x)), assoc_In, E. }
  destruct (style_ok_fields _ Hstyle) as (c & ch & mq & tm & E1 & E2 & E3 & E4).
  unfold ribbon_enhance_prompt, load_taxonomy, bind, global, lift.
  cbv beta iota zeta. rewrite Hs. cbn [get_method getitem]. rewrite Hc.
  cbv beta iota.
  rewrite E1. cbn [rbind]. rewrite E2. cbn [rbind].
  rewrite E3. cbn [rbind]. rewrite E4. cbn [rbind].
  rewrite Hp. cbn [rbind items].
  match goal with
  | |- context [for_items patterns ?body ?acc] =>
      assert (Hb1 : forall k v, In (k, v) patterns ->
                               forall s, exists s', body k v s = Ok s');
        [|destruct (for_items_ok patterns body Hb1 acc) as [e1 R1]]
  end.
  { intros k v Hin s. apply pattern_ok_step. apply (Hpatterns (k, v) Hin). }
  rewrite R1. cbn [rbind]. rewrite Hq. cbn [rbind items].
  match goal with
  | |- context [for_items requirements ?body ?acc] =>
      assert (Hb2 : forall k v, In (k, v) requirements ->
                               forall s, exists s', body k v s = Ok s');
        [|destruct (for_items_ok requirements body Hb2 acc) as [e2 R2]]
  end.
  { intros k v Hin s. eexists. reflexivity. }
  rewrite R2. cbn [rbind]. rewrite Ha. cbn [rbind items].
  match goal with
  | |- context [for_items principles ?body ?acc] =>
      assert (Hb3 : forall k v, In (k, v) principles ->
                               forall s, exists s', body k v s = Ok s');
        [|destruct (for_items_ok principles body Hb3 acc) as [e3 R3]]
  end.
  { intros k v Hin s. destruct (is_ok_true _ (Hprinciples (k, v) Hin)) as [j E].
    cbn [snd] in E. rewrite E. cbn [rbind]. eexists. reflexivity. }
  rewrite R3. cbn [rbind]. eexists. reflexivity.
Qed.

(** ** Further properties: the style listing on any table *)

Lemma Ok_inj {A} (a b : A) : Ok a = Ok b -> a = b.
Proof. intro H. injection H as H. exact H. Qed.

Lemma line_written_extends (l s r : string) :
  line_written l s -> line_written l (s ++ r).
Proof.
  intros [pre [post H]]. exists pre, (post ++ r).
  rewrite <- append_assoc, H, !append_assoc. reflexivity.
Qed.

Lemma line_written_has_line (l s : string) : line_written l s -> has_line l s.
Proof.
  intros [pre [post H]]. exists pre, (post ++ nl).
  rewrite <- append_assoc, H, !append_assoc. reflexivity.
Qed.

Lemma line_written_new (l s : string) :
  ends_with_nl s -> line_written l (s ++ l ++ nl).
Proof.
  intros [s0 ->]. exists (nl ++ s0), "".
  rewrite !append_assoc, append_nil_r. reflexivity.
Qed.

Lemma ends_with_nl_app (s r : string) : ends_with_nl r -> ends_with_nl (s ++ r).
Proof. intros [r0 ->]. exists (s ++ r0). rewrite append_assoc. reflexivity. Qed.

Lemma for_items_preserves (I : string -> Prop) (its : list (string * value))
      (body : string -> value -> string -> result string) :
  (forall k v s s', In (k, v) its -> I s -> body k v s = Ok s' -> I s') ->
  forall s s', I s -> for_items its body s = Ok s' -> I s'.
Proof.
  induction its as [|[k v] its IH]; intros H s s' Hs; simpl.
  - intro E. injection E as <-. exact Hs.
  - destruct (body k v s) as [s1|e] eqn:E1; cbn [rbind]; [|discriminate].
    apply IH.
    + intros k' v' a a' Hin. apply H. right. exact Hin.
    + apply (H k v s s1 (or_introl eq_refl) Hs E1).
Qed.

Lemma for_items_reaches (I Q : string -> Prop) (its : list (string * value))
      (body : string -> value -> string -> result string) (k0 : string) (v0 : value) :
  (forall k v s s', In (k, v) its -> I s -> body k v s = Ok s' -> I s') ->
  (forall k v s s', In (k, v) its -> I s -> Q s -> body k v s = Ok s' -> Q s') ->
  In (k0, v0) its ->
  (forall s s', I s -> body k0 v0 s = Ok s' -> Q s') ->
  forall s s', I s -> for_items its body s = Ok s' -> Q s'.
Proof.
  intros HI HQ. induction its as [|[k v] its IH]; intros Hin H0 s s' Hs; [contradiction|].
  simpl. destruct (body k v s) as [s1|e] eqn:E1; cbn [rbind]; [|discriminate].
  intro E.
  assert (Hs1 : I s1) by exact (HI k v s s1 (or_introl eq_refl) Hs E1).
  destruct Hin as [Heq|Hin].
  - injection Heq as -> ->.
    assert (Q1 : Q s1) by exact (H0 s s1 Hs E1).
    apply (for_items_preserves (fun a => I a /\ Q a) its body) with (s := s1) (s' := s');
      [ | split; assumption | exact E ].
    intros k' v' a a' Hin' [Ia Qa] Ea. split.
    + apply (HI k' v' a a'); [right; exact Hin' | exact Ia | exact Ea].
    + apply (HQ k' v' a a'); [right; exact Hin' | exact Ia | exact Qa | exact Ea].
  - apply (IH (fun k' v' a a' Hin' => HI k' v' a a' (or_intror Hin'))
              (fun k' v' a a' Hin' => HQ k' v' a a' (or_intror Hin'))
              Hin H0 s1 s' Hs1 E).
Qed.

Lemma for_items_each_ran {S : Type} (its : list (string * value))
      (body : string -> value -> S -> result S) (s s' : S) (k : string) (v : value) :
  for_items its body s = Ok s' -> In (k, v) its ->
  exists a b, body k v a = Ok b.
Proof.
  revert s; induction its as [|[k' v'] its IH]; intros s E Hin; [contradiction|].
  simpl in E. destruct (body k' v' s) as [s1|e] eqn:E1; cbn [rbind] in E; [|discriminate].
  destruct Hin as [Heq|Hin].
  - injection Heq as <- <-. exists s, s1. exact E1.
  - apply (IH s1 E Hin).
Qed.

Lemma all_str_elements (l : list value) (parts : list string) (x : value) :
  all_str l = Ok parts -> In x l -> exists s, x = VStr s.
Proof.
  revert parts; induction l as [|y l IH]; intros parts E Hin; [contradiction|].
  simpl in E. destruct y as [s|l0|d]; try discriminate.
  destruct (all_str l) as [rest|e] eqn:Er; cbn [rbind] in E; [|discriminate].
  destruct Hin as [<-|Hin].
  - exists s. reflexivity.
  - apply (IH rest eq_refl Hin).
Qed.

Lemma style_field_step_extends key value0 s s' :
  style_field_step key value0 s = Ok s' -> exists r, s' = s ++ r.
Proof.
  unfold style_field_step. destruct value0 as [x|l|d].
  - intro E. apply Ok_inj in E. subst s'. eexists. reflexivity.
  - destruct (join_value ", " (VList l)); cbn [rbind]; [|discriminate].
    intro E. apply Ok_inj in E. subst s'. eexists. reflexivity.
  - intro E. apply Ok_inj in E. subst s'. eexists. reflexivity.
Qed.

Lemma style_field_step_ends key value0 s s' :
  style_field_step key value0 s = Ok s' -> ends_with_nl s'.
Proof.
  unfold style_field_step. destruct value0 as [x|l|d].
  - intro E. apply Ok_inj in E. subst s'. eexists. rewrite <- !append_assoc. reflexivity.
  - destruct (join_value ", " (VList l)); cbn [rbind]; [|discriminate].
    intro E. apply Ok_inj in E. subst s'. eexists. rewrite <- !append_assoc. reflexivity.
  - intro E. apply Ok_inj in E. subst s'. eexists. rewrite <- !append_assoc. reflexivity.
Qed.

Lemma style_step_run (style_name : string) (details : value) (output s' : string) :
  style_step style_name details output = Ok s' ->
  exists fields,
    details = VDict fields /\
    for_items fields style_field_step
      (output ++ (nl ++ "### " ++ title (unscore style_name) ++ nl)) = Ok s'.
Proof.
  unfold style_step. cbv zeta.
  destruct details as [x|l|fields]; cbn [items rbind]; try discriminate.
  intro E. exists fields. auto.
Qed.

Lemma style_header_ends (output style_name : string) :
  ends_with_nl (output ++ (nl ++ "### " ++ title (unscore style_name) ++ nl)).
Proof. eexists. rewrite <- !append_assoc. reflexivity. Qed.

Lemma style_variations_run (g : globals) (styles : list (string * value)) (out : string) :
  g_STYLE_VARIATIONS g = VDict styles ->
  ribbon_style_variations g = (Ok out, g) ->
  for_items styles style_step (nl ++ "## STYLE VARIATIONS" ++ nl) = Ok out.
Proof.
  intros Hs H. unfold ribbon_style_variations, bind, global, lift in H.
  cbv beta iota zeta in H. rewrite Hs in H.
  apply (f_equal fst) in H. cbn [fst items rbind] in H. exact H.
Qed.

Lemma style_step_extends (style_name : string) (details : value) (s s' : string) :
  style_step style_name details s = Ok s' ->
  exists r, s' = s ++ r.
Proof.
  intro E. destruct (style_step_run _ _ _ _ E) as (fields & _ & R).
  apply for_items_extends in R.
  - destruct R as [r ->]. eexists. rewrite append_assoc. reflexivity.
  - intros k v a a'. apply style_field_step_extends.
Qed.

Lemma style_step_ends (style_name : string) (details : value) (s s' : string) :
  style_step style_name details s = Ok s' ->
  ends_with_nl s'.
Proof.
  intro E. destruct (style_step_run _ _ _ _ E) as (fields & _ & R).
  apply (for_items_preserves ends_with_nl fields style_field_step) in R.
  - exact R.
  - intros k v a a' _ _. apply style_field_step_ends.
  - apply style_header_ends.
Qed.

(** A line written while one style is listed is a line of the listing. *)
Lemma style_variations_line (g : globals) (styles : list (string * value))
      (out style_name : string) (details : value) (l : string) :
  g_STYLE_VARIATIONS g = VDict styles ->
  ribbon_style_variations g = (Ok out, g) ->
  In (style_name, details) styles ->
  (forall s s',
      ends_with_nl s ->
      style_step style_name details s = Ok s' ->
      line_written l s') ->
  has_line l out.
Proof.
  intros Hs H Hin Hl. apply line_written_has_line.
  pose proof (style_variations_run g styles out Hs H) as R.
  apply (for_items_reaches ends_with_nl (line_written l) styles style_step style_name details)
    with (s := nl ++ "## STYLE VARIATIONS" ++ nl) (s' := out).
  - intros k v s s' _ _. apply style_step_ends.
  - intros k v s s' _ _ Q E. destruct (style_step_extends _ _ _ _ E) as [r ->].
    apply line_written_extends, Q.
  - exact Hin.
  - exact Hl.
  - eexists. rewrite <- !append_assoc. reflexivity.
  - exact R.
Qed.

Lemma style_field_line (fields : list (string * value)) (key : string) (value0 : value)
      (l s s' : string) :
  In (key, value0) fields ->
  (forall a a', style_field_step key value0 a = Ok a' -> a' = a ++ l ++ nl) ->
  ends_with_nl s ->
  for_items fields style_field_step s = Ok s' ->
  line_written l s'.
Proof.
  intros Hin Hstep Hs R.
  apply (for_items_reaches ends_with_nl (line_written l) fields style_field_step key value0)
    with (s := s) (s' := s').
  - intros k v a a' _ _. apply style_field_step_ends.
  - intros k v a a' _ _ Q E. destruct (style_field_step_extends _ _ _ _ E) as [r ->].
    apply line_written_extends, Q.
  - exact Hin.
  - intros a a' Ha E. rewrite (Hstep a a' E). apply line_written_new, Ha.
  - exact Hs.
  - exact R.
Qed.

(** X15: on any style table on which the listing returns, every style has
    its title line, every field that is a list of strings has the line
    "  - key: " with the elements joined by ", " in their order, and every
    string field the line "  - key: " with the string. *)
Theorem style_variations_lists_each_style
        (g : globals) (styles fields : list (string * value)) (out style_name : string) :
  g_STYLE_VARIATIONS g = VDict styles ->
  ribbon_style_variations g = (Ok out, g) ->
  In (style_name, VDict fields) styles ->
  has_line ("### " ++ title (unscore style_name)) out /\
  (forall key l,
      In (key, strs l) fields -> has_line ("  - " ++ key ++ ": " ++ join ", " l) out) /\
  (forall key s,
      In (key, VStr s) fields -> has_line ("  - " ++ key ++ ": " ++ s) out).
Proof.
  intros Hs H Hin. split; [|split].
  - apply (style_variations_line g styles out style_name (VDict fields) _ Hs H Hin).
    intros s s' Ha E. destruct (style_step_run _ _ _ _ E) as (fields' & _ & R).
    apply for_items_extends in R;
      [|intros k v a a'; apply style_field_step_extends].
    destruct R as [r ->]. apply line_written_extends.
    exists (nl ++ s), "". rewrite !append_assoc, append_nil_r. reflexivity.
  - intros key l Hk.
    apply (style_variations_line g styles out style_name (VDict fields) _ Hs H Hin).
    intros s s' Ha E. unfold style_step in E. cbv zeta in E. cbn [items rbind] in E.
    eapply style_field_line; [exact Hk | | apply style_header_ends | exact E].
    intros a a'. unfold style_field_step, strs, join_value.
    rewrite all_str_strs. cbn [rbind]. intro E'. apply Ok_inj in E'. subst a'.
    rewrite !append_assoc. reflexivity.
  - intros key x Hk.
    apply (style_variations_line g styles out style_name (VDict fields) _ Hs H Hin).
    intros s s' Ha E. unfold style_step in E. cbv zeta in E. cbn [items rbind] in E.
    eapply style_field_line; [exact Hk | | apply style_header_ends | exact E].
    intros a a'. unfold style_field_step, py_str. intro E'. apply Ok_inj in E'. subst a'.
    rewrite !append_assoc. reflexivity.
Qed.

(** X16: the listing joins a list field without converting its elements,
    so on a style table in which some list field holds an element that is
    not a string it raises instead of returning. *)
Theorem style_variations_needs_string_elements
        (g : globals) (styles fields : list (string * value))
        (style_name key : string) (l : list value) (x : value) :
  g_STYLE_VARIATIONS g = VDict styles ->
  In (style_name, VDict fields) styles ->
  In (key, VList l) fields ->
  In x l ->
  (forall s, x <> VStr s) ->
  exists e, ribbon_style_variations g = (Raise e, g).
Proof.
  intros Hs Hin Hk Hx Hn.
  pose proof (ribbon_style_variations_read_only g) as Hg.
  destruct (ribbon_style_variations g) as [[out|e] g'] eqn:H;
    cbn [snd] in Hg; subst g'; [|exists e; reflexivity].
  exfalso.
  pose proof (style_variations_run g styles out Hs H) as R.
  destruct (for_items_each_ran _ _ _ _ _ _ R Hin) as (a & b & E).
  unfold style_step in E. cbv zeta in E. cbn [items rbind] in E.
  destruct (for_items_each_ran _ _ _ _ _ _ E Hk) as (a' & b' & E').
  unfold style_field_step, join_value in E'.
  destruct (all_str l) as [parts|e] eqn:Ea; cbn [rbind] in E'; [|discriminate].
  destruct (all_str_elements l parts x Ea Hx) as [s ->].
  apply (Hn s). reflexivity.
Qed.

(** ** Further properties: sections and patterns *)

(** X17: what a vocabulary tool does with a broken taxonomy: a missing
    section raises KeyError with the section name, a section that is not a
    dictionary raises AttributeError, a taxonomy that is not a dictionary
    raises TypeError; otherwise the tool returns. *)
Theorem vocabulary_tool_failures (g : globals) (name : string) :
  (forall d, g_RIBBON_TAXONOMY g = VDict d -> assoc name d = None ->
             taxonomy_section_tool name g = (Raise (KeyError name), g)) /\
  (forall d v, g_RIBBON_TAXONOMY g = VDict d -> assoc name d = Some v ->
               (forall section, v <> VDict section) ->
               taxonomy_section_tool name g = (Raise AttributeError, g)) /\
  ((forall d, g_RIBBON_TAXONOMY g <> VDict d) ->
   taxonomy_section_tool name g = (Raise TypeError, g)) /\
  (forall d section, g_RIBBON_TAXONOMY g = VDict d -> assoc name d = Some (VDict section) ->
                     exists out, taxonomy_section_tool name g = (Ok out, g)).
Proof.
  rewrite taxonomy_section_tool_run. unfold taxonomy_section, getitem.
  repeat split.
  - intros d -> ->. reflexivity.
  - intros d v -> -> Hv. cbn [rbind].
    destruct v as [x|l|section]; [reflexivity | reflexivity |].
    exfalso. apply (Hv section). reflexivity.
  - intro H. destruct (g_RIBBON_TAXONOMY g) as [x|l|d]; [reflexivity | reflexivity |].
    exfalso. apply (H d). reflexivity.
  - intros d section -> ->. eexists. reflexivity.
Qed.

(** X18: the movement block of the report follows the taxonomy: every
    movement pattern has its title line, its types joined by ", " and its
    technical note, for all arguments.  The other lists of a pattern (all
    but "types" and "properties") are left out: their joined text does not
    occur in the report of the default call on an empty description. *)
Theorem enhance_patterns_follow_taxonomy
        (rd sp tf pattern_type : string) (details : value) :
  In (pattern_type, details) (entries (at_path RIBBON_TAXONOMY ["movement_patterns"])) ->
  (exists out,
      returns (ribbon_enhance_prompt rd sp tf) out /\
      has_line ("**" ++ title (unscore pattern_type) ++ "**") out /\
      has_line ("- Types: " ++ list_text details "types") out /\
      has_line ("- Technical Note: " ++ field_text details "technical_notes") out) /\
  (exists plain,
      returns (run_call (Call_enhance_prompt "" None None)) plain /\
      forall key l,
        In (key, l) (list_fields details) ->
        key <> "types" -> key <> "properties" ->
        ~ contains (join_strs ", " l) plain).
Proof.
  intro Hin. split.
  - eexists. split; [apply enhance_run|].
    simpl in Hin.
    repeat (destruct Hin as [Hin|Hin];
            [injection Hin as <- <-;
             repeat split; apply layout_vocabulary_line; closed_line|]).
    contradiction.
  - exists (text_of (run_call (Call_enhance_prompt "" None None))).
    split; [closed_run|].
    intros key l Hk Ht Hp. simpl in Hin.
    repeat (destruct Hin as [Hin|Hin];
            [injection Hin as <- <-; simpl in Hk;
             repeat (destruct Hk as [Hk|Hk];
                     [injection Hk as <- <-;
                      first [ exfalso; apply Ht; reflexivity
                            | exfalso; apply Hp; reflexivity
                            | apply contains_false; vm_compute; reflexivity ]|]);
             contradiction|]).
    contradiction.
Qed.

End Server.

(** ** Examples and counterexamples

    They are stated on all-ASCII text and run with [ascii_only]. *)

#[global] Existing Instance ascii_only.

Ltac closed_line := apply has_lineb_true; vm_compute; reflexivity.

Ltac closed_run := unfold returns; vm_compute; reflexivity.

(** The two reports for the unrecognized "jazz" and for "classical". *)
Lemma unrecognized_style_matches_classical_layout_jazz :
  is_style "jazz" = false /\
  returns (ribbon_enhance_prompt "Waves" "jazz" "balanced")
    (enhance_layout "Waves" "Jazz"
       "elegant_lines, refined_technique, traditional_beauty"
       "controlled_grace" "ballet_classical_orchestral"
       "jazz" "balanced") /\
  returns (ribbon_enhance_prompt "Waves" "classical" "balanced")
    (enhance_layout "Waves" "Classical"
       "elegant_lines, refined_technique, traditional_beauty"
       "controlled_grace" "ballet_classical_orchestral"
       "classical" "balanced").
Proof.
  split; [reflexivity|].
  apply (unrecognized_style_matches_classical_layout "Waves" "jazz" "balanced").
  reflexivity.
Defined.

(** C1 as stated fails: "jazz" is not a key of STYLE_VARIATIONS, and the
    report for it is not the report for "classical". *)
Lemma unrecognized_style_differs_from_classical :
  is_style "jazz" = false /\
  exists out_jazz out_classical,
    returns (ribbon_enhance_prompt "Waves" "jazz" "balanced") out_jazz /\
    returns (ribbon_enhance_prompt "Waves" "classical" "balanced") out_classical /\
    out_jazz <> out_classical.
Proof.
  split; [reflexivity|].
  exists (text_of (ribbon_enhance_prompt "Waves" "jazz" "balanced")),
         (text_of (ribbon_enhance_prompt "Waves" "classical" "balanced")).
  split; [closed_run|]. split; [closed_run|].
  intro E. apply (f_equal (containsb "## Style Framework: Jazz")) in E.
  vm_compute in E. discriminate.
Qed.

(** The style lines of the report for the unrecognized "jazz". *)
Lemma unrecognized_style_uses_classical_record_jazz :
  is_style "jazz" = false /\
  exists style rest,
    getitem STYLE_VARIATIONS "classical" = Ok style /\
    character_text style = "elegant_lines, refined_technique, traditional_beauty" /\
    field_text style "movement_quality" = "controlled_grace" /\
    field_text style "typical_music" = "ballet_classical_orchestral" /\
    returns (ribbon_enhance_prompt "Waves" "jazz" "balanced")
      ("# Enhanced Ribbon Routine Description" ++ nl ++
       nl ++
       "## Original Concept" ++ nl ++
       "Waves" ++ nl ++
       nl ++
       "## Style Framework: " ++ title (unscore "jazz") ++ nl ++
       "- Character: " ++ character_text style ++ nl ++
       "- Movement Quality: " ++ field_text style "movement_quality" ++ nl ++
       "- Musical Context: " ++ field_text style "typical_music" ++ nl ++
       rest).
Proof.
  split; [reflexivity|].
  apply (unrecognized_style_uses_classical_record "Waves" "jazz" "balanced").
  reflexivity.
Defined.

(** C4 as stated fails: the list COMPOSITIONAL_RULES["technical_requirements"]
    ["code_of_points_2025"]["difficulty_groups"] is shown by
    ribbon_composition_guide as a Python list literal, brackets and quotes
    included, and the comma-joined text of its elements is nowhere in the
    output; ribbon_full_taxonomy shows the style characteristics the same
    way. *)
Lemma nested_rule_list_not_comma_joined :
  In ("difficulty_groups",
      [VStr "Jumps/Leaps"; VStr "Balance"; VStr "Rotations"; VStr "Flexibility"])
     (list_fields COMPOSITIONAL_RULES) /\
  In ("characteristics",
      [VStr "elegant_lines"; VStr "refined_technique"; VStr "traditional_beauty"])
     (list_fields STYLE_VARIATIONS) /\
  exists guide full,
    returns ribbon_composition_guide guide /\
    returns ribbon_full_taxonomy full /\
    has_line "  - difficulty_groups: ['Jumps/Leaps', 'Balance', 'Rotations', 'Flexibility']"
             guide /\
    ~ contains "Jumps/Leaps, Balance, Rotations, Flexibility" guide /\
    ~ contains "elegant_lines, refined_technique, traditional_beauty" full.
Proof.
  split; [vm_compute; tauto|]. split; [vm_compute; tauto|].
  exists (text_of ribbon_composition_guide), (text_of ribbon_full_taxonomy).
  split; [closed_run|]. split; [closed_run|].
  split; [closed_line|].
  split; apply contains_false; vm_compute; reflexivity.
Qed.

(** The types of the spirals, as the movement section shows them. *)
Lemma table_lists_comma_joined_spirals :
  exists data out,
    In ("movement_patterns", data) (entries RIBBON_TAXONOMY) /\
    format_taxonomy_section "movement_patterns" data = Ok out /\
    has_line "  - types: vertical, horizontal, diagonal, conical" out.
Proof.
  destruct table_lists_comma_joined as [H _].
  eexists.
  destruct (H "movement_patterns" _ (or_introl eq_refl)) as [out [Hout Hj]].
  exists out. split; [left; reflexivity|]. split; [exact Hout|].
  apply (Hj "types" [VStr "vertical"; VStr "horizontal"; VStr "diagonal"; VStr "conical"]).
  simpl. left. reflexivity.
Defined.

(** A section with one pattern and its list of types. *)
Lemma format_taxonomy_section_lists_moves :
  exists out,
    format_taxonomy_section "moves" (VDict [("leaps", VDict [("types", strs ["split"; "stag"])])])
    = Ok out /\
    has_line "  - types: split, stag" out.
Proof.
  destruct (format_taxonomy_section_lists
              "moves" [("leaps", VDict [("types", strs ["split"; "stag"])])])
    as (out & Hout & H2 & _).
  exists out. split; [exact Hout|].
  apply (H2 "leaps" [("types", strs ["split"; "stag"])] "types" [VStr "split"; VStr "stag"]).
  - left. reflexivity.
  - left. reflexivity.
Defined.

(** A section whose one entry is a plain string. *)
Lemma format_taxonomy_section_category_header_note :
  In ("floor_work", VStr "see notes") [("floor_work", VStr "see notes")] /\
  exists out,
    format_taxonomy_section "warm_up" (VDict [("floor_work", VStr "see notes")]) = Ok out /\
    has_line ("### " ++ title (unscore "floor_work")) out.
Proof.
  split; [left; reflexivity|].
  apply (format_taxonomy_section_category_header
           "warm_up" [("floor_work", VStr "see notes")] "floor_work" (VStr "see notes")).
  left. reflexivity.
Defined.

(** A description of two lines, the second shaped like a section header. *)
Lemma enhance_keeps_description_lines_header :
  has_line "## Cost Optimization Note" ("Waves" ++ nl ++ "## Cost Optimization Note") /\
  exists out,
    returns (ribbon_enhance_prompt ("Waves" ++ nl ++ "## Cost Optimization Note")
                                   "lyrical" "balanced") out /\
    has_line "## Cost Optimization Note" out.
Proof.
  assert (H : has_line "## Cost Optimization Note"
                       ("Waves" ++ nl ++ "## Cost Optimization Note"))
    by (apply has_lineb_true; vm_compute; reflexivity).
  split; [exact H|].
  apply (enhance_keeps_description_lines _ "lyrical" "balanced" _ H).
Defined.

(** The report for "dramatic". *)
Lemma recognized_style_uses_its_record_dramatic :
  getitem STYLE_VARIATIONS "dramatic" =
  Ok (VDict [("characteristics",
              strs ["intense_expression"; "theatrical_quality"; "emotional_depth"]);
             ("movement_quality", VStr "passionate_power");
             ("typical_music", VStr "cinematic_dramatic_intense")]) /\
  returns (ribbon_enhance_prompt "Waves" "dramatic" "balanced")
    (enhance_layout "Waves" "Dramatic"
       "intense_expression, theatrical_quality, emotional_depth"
       "passionate_power" "cinematic_dramatic_intense"
       "dramatic" "balanced").
Proof.
  split; [reflexivity|].
  apply (recognized_style_uses_its_record "Waves" "dramatic" "balanced"
           (VDict [("characteristics",
                    strs ["intense_expression"; "theatrical_quality"; "emotional_depth"]);
                   ("movement_quality", VStr "passionate_power");
                   ("typical_music", VStr "cinematic_dramatic_intense")])).
  reflexivity.
Defined.

(** A style table that holds "lyrical" only, asked for "lyrical". *)
Lemma enhance_needs_classical_entry_lyrical :
  getitem (g_STYLE_VARIATIONS lyrical_only_globals) "lyrical" <> Raise (KeyError "lyrical") /\
  ribbon_enhance_prompt "Waves" "lyrical" "balanced" lyrical_only_globals =
  (Raise (KeyError "classical"), lyrical_only_globals).
Proof.
  split; [discriminate|].
  apply (enhance_needs_classical_entry lyrical_only_globals
           (entries (g_STYLE_VARIATIONS lyrical_only_globals))
           "Waves" "lyrical" "balanced");
    reflexivity.
Defined.

(** The record of the style "lyrical". *)
Lemma table_entries_reachable_lyrical :
  exists v,
    In ("lyrical", v) (entries STYLE_VARIATIONS) /\
    getitem (VDict (entries STYLE_VARIATIONS)) "lyrical" = Ok v.
Proof.
  eexists. split.
  - do 3 right. left. reflexivity.
  - apply (table_entries_reachable STYLE_VARIATIONS (entries STYLE_VARIATIONS)).
    + do 2 right. left. reflexivity.
    + left. reflexivity.
    + do 3 right. left. reflexivity.
Defined.

(** The full taxonomy of the loaded module. *)
Lemma full_taxonomy_concatenates_sections_loaded :
  ribbon_full_taxonomy initial_globals =
  (Ok ("# RHYTHMIC RIBBON DANCE VISUAL VOCABULARY" ++ nl ++
       nl ++ "## Complete Taxonomy - All Layers" ++ nl ++
       text_of ribbon_movement_vocabulary ++
       text_of ribbon_spatial_vocabulary ++
       text_of ribbon_temporal_vocabulary ++
       text_of ribbon_physical_properties ++
       text_of (lift (taxonomy_section RIBBON_TAXONOMY "compositional_structure")) ++
       nl ++ nl ++ "## COMPOSITIONAL RULES (Layer 2)" ++ nl ++
       dump_entries (entries COMPOSITIONAL_RULES) ++
       nl ++ nl ++ "## STYLE VARIATIONS (Layer 3)" ++ nl ++
       dump_entries (entries STYLE_VARIATIONS) ++
       nl ++ nl ++ "---" ++ nl ++
       "Three-Layer Architecture:" ++ nl ++
       "- Layer 1: Deterministic taxonomy (movement, spatial, temporal, physical)" ++ nl ++
       "- Layer 2: Compositional rules and technical requirements" ++ nl ++
       "- Layer 3: Style variations and expressive synthesis" ++ nl ++
       nl ++ "Cost optimization: ~60-80% savings vs pure LLM approaches" ++ nl),
   initial_globals).
Proof.
  apply (full_taxonomy_concatenates_sections initial_globals);
    vm_compute; reflexivity.
Defined.

(** A taxonomy that ends after its second section. *)
Lemma full_taxonomy_first_failure_temporal :
  ribbon_full_taxonomy two_section_globals =
  (Raise (KeyError "temporal_dynamics"), two_section_globals).
Proof.
  apply (full_taxonomy_first_failure two_section_globals
           ["movement_patterns"; "spatial_relationships"] "temporal_dynamics"
           ["physical_properties"; "compositional_structure"]).
  - reflexivity.
  - intros n [<-|[<-|[]]]; reflexivity.
  - reflexivity.
Defined.

(** The guide of the loaded module. *)
Lemma composition_guide_opens_with_structure_loaded :
  exists rest,
    text_of ribbon_composition_guide =
    nl ++ "## COMPOSITIONAL STRUCTURE GUIDE" ++ nl ++
    text_of (lift (taxonomy_section RIBBON_TAXONOMY "compositional_structure")) ++
    nl ++ nl ++ "## COMPOSITIONAL RULES" ++ nl ++
    rest.
Proof.
  apply (composition_guide_opens_with_structure initial_globals);
    vm_compute; reflexivity.
Defined.

(** Rules that hold a flat list under their one category. *)
Lemma composition_guide_failures_flat_rules :
  ribbon_composition_guide flat_rules_globals = (Raise AttributeError, flat_rules_globals) /\
  is_ok (format_taxonomy_section "rules"
           (VDict [("aesthetic_principles", strs ["visual_balance"; "flow_continuity"])]))
  = true.
Proof.
  destruct (composition_guide_failures flat_rules_globals) as [_ H].
  apply (H (text_of (lift (taxonomy_section RIBBON_TAXONOMY "compositional_structure")))
           "aesthetic_principles" (strs ["visual_balance"; "flow_continuity"]) []).
  - vm_compute. reflexivity.
  - reflexivity.
  - intros d E. discriminate E.
Defined.

(** The loaded module has what the report needs. *)
Lemma enhance_returns_on_ready_tables_loaded :
  enhance_ready initial_globals = true /\
  exists out,
    ribbon_enhance_prompt "Waves" "jazz" "balanced" initial_globals =
    (Ok out, initial_globals).
Proof.
  assert (H : enhance_ready initial_globals = true) by (vm_compute; reflexivity).
  split; [exact H|].
  apply (enhance_returns_on_ready_tables initial_globals "Waves" "jazz" "balanced" H).
Defined.

(** The loaded style table and its "dramatic" record. *)
Lemma style_variations_lists_each_style_dramatic :
  has_line "### Dramatic" (text_of ribbon_style_variations) /\
  (forall key l,
      In (key, strs l) (entries (style_of "dramatic")) ->
      has_line ("  - " ++ key ++ ": " ++ join ", " l) (text_of ribbon_style_variations)) /\
  (forall key s,
      In (key, VStr s) (entries (style_of "dramatic")) ->
      has_line ("  - " ++ key ++ ": " ++ s) (text_of ribbon_style_variations)).
Proof.
  apply (style_variations_lists_each_style initial_globals
           (entries STYLE_VARIATIONS) (entries (style_of "dramatic"))
           (text_of ribbon_style_variations) "dramatic").
  - reflexivity.
  - vm_compute. reflexivity.
  - do 2 right. left. reflexivity.
Defined.

(** A style whose characteristics hold a nested list. *)
Lemma style_variations_needs_string_elements_nested :
  exists e, ribbon_style_variations mixed_style_globals = (Raise e, mixed_style_globals).
Proof.
  apply (style_variations_needs_string_elements mixed_style_globals
           (entries (g_STYLE_VARIATIONS mixed_style_globals))
           (entries (at_path (g_STYLE_VARIATIONS mixed_style_globals) ["fusion"]))
           "fusion" "characteristics"
           [VStr "layered"; VList [VStr "folk"; VStr "modern"]]
           (VList [VStr "folk"; VStr "modern"])).
  - reflexivity.
  - left. reflexivity.
  - left. reflexivity.
  - right. left. reflexivity.
  - intros s E. discriminate E.
Defined.

(** A taxonomy without its temporal section. *)
Lemma vocabulary_tool_failures_temporal :
  ribbon_temporal_vocabulary two_section_globals =
  (Raise (KeyError "temporal_dynamics"), two_section_globals).
Proof.
  destruct (vocabulary_tool_failures two_section_globals "temporal_dynamics") as [H _].
  apply (H (entries (g_RIBBON_TAXONOMY two_section_globals))); reflexivity.
Defined.

(** The snakes. *)
Lemma enhance_patterns_follow_taxonomy_snakes :
  exists out,
    returns (ribbon_enhance_prompt "Waves" "lyrical" "balanced") out /\
    has_line "**Snakes**" out /\
    has_line "- Types: horizontal_snake, vertical_snake, diagonal_snake" out /\
    has_line "- Technical Note: Rapid wrist oscillation; arm moves in opposite direction to ribbon"
             out.
Proof.
  destruct (enhance_patterns_follow_taxonomy "Waves" "lyrical" "balanced" "snakes"
              (at_path RIBBON_TAXONOMY ["movement_patterns"; "snakes"])) as [H _].
  - do 2 right. left. reflexivity.
  - exact H.
Defined.

(** C9 as stated fails: a technical_focus with a line break spreads over
    two lines.  For "a", line break, "b" and "a", line break, "c" the two
    reports have the same line "2. Spatial Focus: Use a" and differ in the
    line after it. *)
Lemma technical_focus_line_break_changes_next_line :
  exists pre post out_b out_c,
    returns (ribbon_enhance_prompt "Waves" "classical" ("a" ++ nl ++ "b")) out_b /\
    returns (ribbon_enhance_prompt "Waves" "classical" ("a" ++ nl ++ "c")) out_c /\
    out_b = pre ++ nl ++ "2. Spatial Focus: Use a" ++ nl ++ "b" ++ nl ++ post /\
    out_c = pre ++ nl ++ "2. Spatial Focus: Use a" ++ nl ++ "c" ++ nl ++ post /\
    out_b <> out_c.
Proof.
  exists ("# Enhanced Ribbon Routine Description" ++ nl ++
          nl ++
          "## Original Concept" ++ nl ++
          "Waves" ++ nl ++
          nl ++
          "## Style Framework: Classical" ++ nl ++
          "- Character: elegant_lines, refined_technique, traditional_beauty" ++ nl ++
          "- Movement Quality: controlled_grace" ++ nl ++
          "- Musical Context: ballet_classical_orchestral" ++ nl ++
          enhance_vocabulary ++
          nl ++
          "For a classical interpretation:" ++ nl ++
          "1. Movement Quality: Emphasize controlled_grace"),
         ("3. Musical Integration: Match ballet_classical_orchestral" ++ nl ++
          enhance_closing),
         (text_of (ribbon_enhance_prompt "Waves" "classical" ("a" ++ nl ++ "b"))),
         (text_of (ribbon_enhance_prompt "Waves" "classical" ("a" ++ nl ++ "c"))).
  split; [closed_run|]. split; [closed_run|].
  split; [vm_compute; reflexivity|]. split; [vm_compute; reflexivity|].
  intro E. apply (f_equal (containsb (nl ++ "b" ++ nl))) in E.
  vm_compute in E. discriminate.
Qed.

(** The focus "movement_rich". *)
Lemma enhance_technical_focus_one_place_movement_rich :
  mem_char LF "movement_rich" = false /\
  exists out,
    returns (ribbon_enhance_prompt "Waves" "classical" "movement_rich") out /\
    has_line "2. Spatial Focus: Use movement rich" out.
Proof.
  split; [reflexivity|].
  destruct (enhance_technical_focus_one_place "Waves" "classical") as (_ & H & _).
  destruct (H "movement_rich" eq_refl) as [_ Hx]. exact Hx.
Defined.
